(** * Deals bot: scoring, synthesis, filtering, sorting and pitch

    A shallow embedding of [backend/main.py] and [backend/schemas.py].

    Numbers.  Python's [float] values are modelled by the real numbers of
    the Standard Library and Python's [int] values by [Z].  Arithmetic is
    exact, the only rounding is the explicit [round(x, ndigits)] of the
    source, and there is no infinity and no NaN.  Comparisons of reals are
    decided by [Rle_dec] and its kin, so the definitions are total
    functions that are evaluated by rewriting rather than by reduction.
    The price arithmetic of the synthesizer and the scorer are embedded a
    second time on binary64 numbers ([Binary64], [Binary64Scorer]), where
    they can be run.

    Text.  Python's [str] values are modelled by [string], holding the
    UTF-8 bytes of the text; case mapping covers the letters of ASCII.

    Effects.  The clock read by the synthesizer is an input.  [make_deal]
    and [scrape_stub] compute with the URL fields as they are handed to
    [Deal(...)]; the module [Validated] puts them through
    the validation that pydantic runs on an [HttpUrl], which can raise
    [ValidationError], and gives the synthesizer and the handler as they
    return or raise.  The validator is library code and is a parameter.
    The HTTP routing is not modelled. *)

From Stdlib Require Import Reals Lra Lia ZArith List Bool.
From Stdlib Require Import Zfloor Ascii String DecimalString.
From Stdlib Require Import Permutation Sorted.
From Stdlib Require Import PrimFloat FloatOps SpecFloat Uint63.
Import ListNotations.

Local Open Scope R_scope.

(** ** Python built-ins on numbers *)

Module Py.

(** Boolean comparisons of reals, as used by [if], [filter] and [sort]. *)
Definition Rleb (x y : R) : bool := if Rle_dec x y then true else false.
Definition Rgeb (x y : R) : bool := Rleb y x.
Definition Reqb (x y : R) : bool := if Req_dec_T x y then true else false.

(** [math.log10]. *)
Definition log10 (x : R) : R := ln x / ln 10.

(** Nearest integer, halves going to the even neighbour: the rounding
    rule of Python's [round]. *)
Definition round_half_even (x : R) : Z :=
  let f := Zfloor x in
  let d := x - IZR f in
  if Rlt_dec d (1 / 2) then f
  else if Rlt_dec (1 / 2) d then (f + 1)%Z
  else if Z.even f then f else (f + 1)%Z.

(** [round(x, ndigits)] for a non-negative number of digits. *)
Definition round (x : R) (ndigits : nat) : R :=
  IZR (round_half_even (x * 10 ^ ndigits)) / 10 ^ ndigits.

(** [int(x)]: truncation towards zero. *)
Definition int (x : R) : Z := if Rle_dec 0 x then Zfloor x else Zceil x.

(** [o or 0] on an optional number: [None] and zero are both falsy. *)
Definition or_zero (o : option R) : R :=
  match o with
  | Some x => if Req_dec_T x 0 then 0 else x
  | None => 0
  end.

Definition or_zeroZ (o : option Z) : Z :=
  match o with
  | Some x => if Z.eqb x 0 then 0%Z else x
  | None => 0%Z
  end.

End Py.

(** ** The scorer *)

Definition _norm (v : option R) (lo hi : R) : R :=
  match v with
  | None => 0
  | Some x =>
      if Req_dec_T hi lo then 0
      else Rmax 0 (Rmin 1 ((x - lo) / (hi - lo)))
  end.

Definition score_deal (price rating : option R) (reviews : option Z) : R :=
  let price_score :=
    match price with
    | Some _ => 1 - _norm price 100 50000
    | None => 0
    end in
  let rating_score :=
    match rating with
    | None => 0
    | Some r => r / 5
    end in
  let reviews_score :=
    match reviews with
    | Some n => Rmin 1 (Py.log10 (IZR (Z.max 1 n)) / 3)
    | None => 0
    end in
  Py.round (0.5 * price_score + 0.35 * rating_score + 0.15 * reviews_score) 4.

(** The scorer as the specification words it. *)
Module ScoreSpec.








End ScoreSpec.

(** ** The price arithmetic of the synthesizer in binary64

    A second embedding of the three numeric lines of the loop of
    [scrape_stub], on the IEEE 754 binary64 numbers that Python's [float]
    is, to compare with the embedding on real numbers.  [round] follows
    CPython: the exact value of the float is rounded to the nearest decimal
    with [ndigits] places, halves to even, and that decimal is converted
    back to the nearest float.  It is exact as long as the scaled integer
    is below 2^53. *)

Module Binary64.

Definition of_Z (n : Z) : float := PrimFloat.of_uint63 (Uint63.of_Z n).

(** [num * 2^e] rounded to the nearest integer, halves to even. *)
Definition nearest_even (num e : Z) : Z :=
  if (0 <=? e)%Z then (num * 2 ^ e)%Z
  else
    let d := (2 ^ (- e))%Z in
    let q := (num / d)%Z in
    let r := (num mod d)%Z in
    if (2 * r <? d)%Z then q
    else if (d <? 2 * r)%Z then (q + 1)%Z
    else if Z.even q then q else (q + 1)%Z.

Definition round (x : float) (ndigits : nat) : float :=
  match Prim2SF x with
  | S754_finite s m e =>
      let n := nearest_even (Zpos m * 10 ^ Z.of_nat ndigits) e in
      let f := PrimFloat.div (of_Z n) (of_Z (10 ^ Z.of_nat ndigits)) in
      if s then PrimFloat.opp f else f
  | _ => x
  end.

Definition max (a b : float) : float := if PrimFloat.ltb a b then b else a.

Definition base_price : float := 999%float.

Definition deltas : list float :=
  [0%float; (-50)%float; 120%float; (-100)%float].

Definition loop_price (delta : float) : float :=
  max 99%float (PrimFloat.add base_price delta).

Definition loop_original (delta : float) : float :=
  PrimFloat.mul (loop_price delta) 1.25%float.

(** [(1 - price / original) * 100], before it is rounded. *)
Definition loop_ratio (delta : float) : float :=
  PrimFloat.mul
    (PrimFloat.sub 1%float (PrimFloat.div (loop_price delta) (loop_original delta)))
    100%float.

Definition loop_discount (delta : float) : float := round (loop_ratio delta) 2.

End Binary64.

(** ** Python built-ins on text and lists *)

Module Str.

Local Open Scope string_scope.

Definition is_upper (c : ascii) : bool :=
  let n := nat_of_ascii c in (65 <=? n)%nat && (n <=? 90)%nat.

Definition is_lower (c : ascii) : bool :=
  let n := nat_of_ascii c in (97 <=? n)%nat && (n <=? 122)%nat.

Definition is_cased (c : ascii) : bool := is_upper c || is_lower c.

Definition upper (c : ascii) : ascii :=
  if is_lower c then ascii_of_nat (nat_of_ascii c - 32) else c.

Definition lower (c : ascii) : ascii :=
  if is_upper c then ascii_of_nat (nat_of_ascii c + 32) else c.

Fixpoint map (f : ascii -> ascii) (s : string) : string :=
  match s with
  | EmptyString => EmptyString
  | String c s' => String (f c) (map f s')
  end.

(** [s.title()]: a letter that follows a cased letter is lowered, any
    other letter is raised.  Only the letters of ASCII are cased here;
    other bytes pass unchanged. *)
Fixpoint title_from (previous_is_cased : bool) (s : string) : string :=
  match s with
  | EmptyString => EmptyString
  | String c s' =>
      String (if previous_is_cased then lower c else upper c)
             (title_from (is_cased c) s')
  end.

Definition title (s : string) : string := title_from false s.

(** [s.capitalize()], with the same restriction to ASCII letters. *)
Definition capitalize (s : string) : string :=
  match s with
  | EmptyString => EmptyString
  | String c s' => String (upper c) (map lower s')
  end.

(** [s.replace(old, new)] for one-character [old] and [new]. *)
Definition replace (old new : ascii) (s : string) : string :=
  map (fun c => if Ascii.eqb c old then new else c) s.

(** [sep.join(parts)]. *)
Fixpoint join (sep : string) (parts : list string) : string :=
  match parts with
  | [] => ""
  | [p] => p
  | p :: rest => p ++ sep ++ join sep rest
  end.

(** [str(n)] for an integer. *)
Definition of_Z (n : Z) : string := NilZero.string_of_int (Z.to_int n).

(** [a == b] where [a] may be [None] and [b] is a string. *)
Definition opt_eqb (a : option string) (b : string) : bool :=
  match a with
  | Some s => String.eqb s b
  | None => false
  end.

(** [needle in s]. *)
Definition contains (needle s : string) : Prop :=
  exists before after, s = before ++ needle ++ after.

End Str.

(** [l[start:stop]] for non-negative bounds. *)
Definition slice {A : Type} (start stop : nat) (l : list A) : list A :=
  firstn (stop - start) (skipn start l).

(** [enumerate(l)], counting from [start]. *)
Fixpoint enumerate_from {A : Type} (start : nat) (l : list A) : list (nat * A) :=
  match l with
  | [] => []
  | x :: l' => (start, x) :: enumerate_from (S start) l'
  end.

Definition enumerate {A : Type} (l : list A) : list (nat * A) :=
  enumerate_from 0 l.

(** ** [list.sort(key=..., reverse=...)]

    Python's sort is stable.  With [reverse=True] the list is reversed,
    sorted with the same stable ascending sort, and reversed again, so that
    elements with equal keys keep their order in that case too. *)

Section ListSort.

Context {A K : Type}.
Variable leb : K -> K -> bool.
Variable key : A -> K.

Fixpoint insert (x : A) (l : list A) : list A :=
  match l with
  | [] => [x]
  | y :: l' => if leb (key x) (key y) then x :: l else y :: insert x l'
  end.

Fixpoint stable_sort (l : list A) : list A :=
  match l with
  | [] => []
  | x :: l' => insert x (stable_sort l')
  end.

Definition list_sort (reverse : bool) (l : list A) : list A :=
  if reverse then rev (stable_sort (rev l)) else stable_sort l.

End ListSort.

(** Order and ties between elements, as seen through a sort key. *)
Definition key_le {A K : Type} (leb : K -> K -> bool) (key : A -> K)
    (a b : A) : Prop :=
  leb (key a) (key b) = true.

Definition key_ge {A K : Type} (leb : K -> K -> bool) (key : A -> K)
    (a b : A) : Prop :=
  key_le leb key b a.

(** [tied leb key k b]: the key of [b] ties with the key value [k]. *)
Definition tied {A K : Type} (leb : K -> K -> bool) (key : A -> K)
    (k : K) (b : A) : bool :=
  leb k (key b) && leb (key b) k.

(** ** The schemas *)

Definition datetime := Z.

Record Deal := mkDeal {
  platform : string;
  title : string;
  price : R;
  original_price : option R;
  discount_percent : option R;
  rating : option R;
  reviews_count : option Z;
  quality_score : option R;
  image_urls : list string;
  product_url : option string;
  delivery : option string;
  created_at : option datetime
}.

Record SearchQuery := mkSearchQuery {
  query : string;
  category : option string;
  min_price : option R;
  max_price : option R;
  sort_by : option string
}.

Record SearchResponse := mkSearchResponse {
  deals : list Deal;
  pitch : string
}.

(** ** The synthesizer

    [datetime.utcnow()] reads the clock once in every turn of the loop;
    the readings are an input here, [clock i] being the one of turn [i].
    [make_deal] gives the field values that a turn hands to [Deal(...)],
    and [scrape_stub] the sorted list of them; what [Deal(...)] does with
    the URL fields is added in [Validated] below. *)

Section Synthesizer.

Local Open Scope string_scope.

Definition PLATFORMS : list string := ["amazon"; "flipkart"; "myntra"; "ajio"].

Definition demo_images : list string :=
  [ "https://images.unsplash.com/photo-1511707171634-5f897ff02aa9";
    "https://images.unsplash.com/photo-1512499617640-c2f999098c01";
    "https://images.unsplash.com/photo-1517336714731-489689fd1ca8";
    "https://images.unsplash.com/photo-1526178610626-3f118bb11566" ].

Definition base_price : R := 999.

(** The sort key [lambda d: d.quality_score or 0]. *)
Definition score_key (d : Deal) : R := Py.or_zero (quality_score d).

Definition platforms : list (string * R * R * Z) :=
  [ ("amazon", 0, 4.5, 1250%Z);
    ("flipkart", -50, 4.3, 980%Z);
    ("myntra", 120, 4.6, 540%Z);
    ("ajio", -100, 4.2, 330%Z) ].

(** One turn of the loop of [scrape_stub]. *)
Definition make_deal (clock : nat -> datetime) (q : string)
    (i : nat) (pf : string) (delta rating0 : R) (reviews : Z) : Deal :=
  let price0 := Rmax 99 (base_price + delta) in
  let original := price0 * 1.25 in
  let discount := Py.round ((1 - price0 / original) * 100) 2 in
  {| platform := pf;
     title := Str.title q ++ " – Top Pick #" ++ Str.of_Z (Z.of_nat i + 1);
     price := Py.round price0 2;
     original_price := Some (Py.round original 2);
     discount_percent := Some discount;
     rating := Some rating0;
     reviews_count := Some reviews;
     quality_score := Some (score_deal (Some price0) (Some rating0) (Some reviews));
     image_urls := demo_images;
     product_url := Some ("https://" ++ pf ++ ".com/s?k=" ++ Str.replace " " "+" q);
     delivery := Some "Fast delivery in 2-4 days";
     created_at := Some (clock i) |}.

(** The list [deals] when the loop ends, before it is sorted. *)
Definition built_deals (clock : nat -> datetime) (q : string) : list Deal :=
  List.map (fun '(i, (pf, delta, rating0, reviews)) =>
              make_deal clock q i pf delta rating0 reviews)
           (enumerate platforms).

Definition scrape_stub (clock : nat -> datetime) (q : string) : list Deal :=
  list_sort Py.Rleb score_key true (built_deals clock q).

End Synthesizer.

(** ** The pitch, and the filter and the sort of the search handler

    How Python prints a float is not modelled: the printing function is a
    parameter of this section.  The handler itself, [search_deals], comes
    with the validation of the deals, in [Validated] below. *)

Section Search.

Variable float_str : R -> string.

Local Open Scope string_scope.

Definition fmt_float (o : option R) : string :=
  match o with
  | Some x => float_str x
  | None => "None"
  end.

Definition fmt_int (o : option Z) : string :=
  match o with
  | Some n => Str.of_Z n
  | None => "None"
  end.

(** The alternatives named by the pitch: [deals[1:3]], joined. *)
Definition alt_text (ds : list Deal) : string :=
  Str.join ", "
    (List.map (fun d => Str.capitalize (platform d) ++ " at ₹"
                        ++ Str.of_Z (Py.int (price d)))
              (slice 1 3 ds)).

Definition craft_pitch (q : string) (ds : list Deal) : string :=
  match ds with
  | [] =>
      "I couldn't find great matches for ‘" ++ q ++ "’ right now. "
      ++ "Try refining the product name or category, and I'll hunt for fresh deals."
  | best :: _ =>
      let alt := alt_text ds in
      "If you're looking for " ++ q ++ ", my best pick is on "
      ++ Str.capitalize (platform best) ++ " at ₹"
      ++ Str.of_Z (Py.int (price best)) ++ " "
      ++ "with " ++ fmt_float (discount_percent best) ++ "% off and a solid "
      ++ fmt_float (rating best) ++ "★ from "
      ++ fmt_int (reviews_count best) ++ "+ reviews. "
      ++ "I can also get you options from " ++ alt
      ++ ". Want me to open the best offer for you?"
  end.

(** The price filters of [search_deals]. *)
Definition filter_min_price (lo : option R) (ds : list Deal) : list Deal :=
  match lo with
  | Some m => filter (fun d => Py.Rgeb (price d) m) ds
  | None => ds
  end.

Definition filter_max_price (hi : option R) (ds : list Deal) : list Deal :=
  match hi with
  | Some m => filter (fun d => Py.Rleb (price d) m) ds
  | None => ds
  end.

Definition filter_price (lo hi : option R) (ds : list Deal) : list Deal :=
  filter_max_price hi (filter_min_price lo ds).

(** The sort of [search_deals]. *)
Definition sort_deals (directive : option string) (ds : list Deal) : list Deal :=
  if Str.opt_eqb directive "price_low" then
    list_sort Py.Rleb price false ds
  else if Str.opt_eqb directive "price_high" then
    list_sort Py.Rleb price true ds
  else if Str.opt_eqb directive "rating" then
    list_sort Py.Rleb (fun d => Py.or_zero (rating d)) true ds
  else if Str.opt_eqb directive "reviews" then
    list_sort Z.leb (fun d => Py.or_zeroZ (reviews_count d)) true ds
  else
    list_sort Py.Rleb score_key true ds.

End Search.

(** ** Building a [Deal]: the URL fields are validated

    [image_urls] and [product_url] are declared as [HttpUrl] in the schema,
    so [Deal(...)] hands them to pydantic, which stores a normalised URL or
    raises [ValidationError].  The validator is library code and is a
    parameter here.  One fact about it is used: it rejects a URL of more
    than 2083 characters.  The fact is taken for URLs made of ASCII
    letters, digits and the punctuation of the URLs built here, where
    characters are bytes and normalisation changes nothing. *)

Inductive error : Type := ValidationError.

Inductive outcome (A : Type) : Type :=
| Returns (x : A)
| Raises (e : error).

Arguments Returns {A} x.
Arguments Raises {A} e.

Definition url_char (c : ascii) : bool :=
  let n := nat_of_ascii c in
  ((48 <=? n)%nat && (n <=? 57)%nat)
  || ((65 <=? n)%nat && (n <=? 90)%nat)
  || ((97 <=? n)%nat && (n <=? 122)%nat)
  || (n =? 58)%nat || (n =? 47)%nat || (n =? 46)%nat
  || (n =? 63)%nat || (n =? 61)%nat || (n =? 43)%nat || (n =? 45)%nat.

Fixpoint plain_url (s : string) : bool :=
  match s with
  | EmptyString => true
  | String c s' => url_char c && plain_url s'
  end.

Record HttpUrl : Type := mkHttpUrl {
  validate : string -> option string;
  too_long :
    forall u, plain_url u = true -> (2083 < String.length u)%nat ->
              validate u = None
}.


Module Validated.

Local Open Scope string_scope.

Fixpoint validate_all (V : HttpUrl) (us : list string) : option (list string) :=
  match us with
  | [] => Some []
  | u :: rest =>
      match validate V u, validate_all V rest with
      | Some u', Some rest' => Some (u' :: rest')
      | _, _ => None
      end
  end.

Definition validate_opt (V : HttpUrl) (o : option string) : option (option string) :=
  match o with
  | None => Some None
  | Some u =>
      match validate V u with
      | Some u' => Some (Some u')
      | None => None
      end
  end.

(** The deal that is stored: the fields as given, the URLs as validated. *)
Definition stored (imgs : list string) (url : option string) (fields : Deal) : Deal :=
  {| platform := platform fields;
     title := title fields;
     price := price fields;
     original_price := original_price fields;
     discount_percent := discount_percent fields;
     rating := rating fields;
     reviews_count := reviews_count fields;
     quality_score := quality_score fields;
     image_urls := imgs;
     product_url := url;
     delivery := delivery fields;
     created_at := created_at fields |}.

(** [Deal(...)] on the given field values. *)
Definition new_Deal (V : HttpUrl) (fields : Deal) : outcome Deal :=
  match validate_all V (image_urls fields), validate_opt V (product_url fields) with
  | Some imgs, Some url => Returns (stored imgs url fields)
  | _, _ => Raises ValidationError
  end.

(** The loop: the first deal that fails to build ends it. *)
Fixpoint collect {A : Type} (l : list (outcome A)) : outcome (list A) :=
  match l with
  | [] => Returns []
  | Returns x :: rest =>
      match collect rest with
      | Returns xs => Returns (x :: xs)
      | Raises e => Raises e
      end
  | Raises e :: _ => Raises e
  end.

(** [make_deal] above computes the field values of a turn of the loop;
    here they go through [Deal(...)]. *)
Definition built_deals (V : HttpUrl) (clock : nat -> datetime) (q : string)
    : outcome (list Deal) :=
  collect (List.map (new_Deal V) (built_deals clock q)).

Definition scrape_stub (V : HttpUrl) (clock : nat -> datetime) (q : string)
    : outcome (list Deal) :=
  match built_deals V clock q with
  | Returns ds => Returns (list_sort Py.Rleb score_key true ds)
  | Raises e => Raises e
  end.

Definition search_deals (float_str : R -> string) (V : HttpUrl)
    (clock : nat -> datetime) (payload : SearchQuery) : outcome SearchResponse :=
  match scrape_stub V clock (query payload) with
  | Returns ds =>
      let ds := filter_price (min_price payload) (max_price payload) ds in
      let ds := sort_deals (sort_by payload) ds in
      Returns {| deals := ds; pitch := craft_pitch float_str (query payload) ds |}
  | Raises e => Raises e
  end.

(** The product URL handed to the validator for a platform. *)
Definition link (pf q : string) : string :=
  "https://" ++ pf ++ ".com/s?k=" ++ Str.replace " " "+" q.

Definition ok (V : HttpUrl) (u : string) : bool :=
  match validate V u with
  | Some _ => true
  | None => false
  end.

(** The validator accepts the four image URLs and the four product URLs
    of a query. *)
Definition accepts (V : HttpUrl) (q : string) : bool :=
  forallb (ok V) demo_images && forallb (fun pf => ok V (link pf q)) PLATFORMS.

End Validated.

(** A validator that stores every URL of at most 2083 characters as it is:
    an instance to run the definitions on. *)
Definition lenient : HttpUrl.
Proof.
  refine {| validate := fun u =>
              if (2083 <? String.length u)%nat then None else Some u |}.
  intros u _ H. apply Nat.ltb_lt in H. now rewrite H.
Defined.

(** ** The scorer in binary64

    [score_deal] on the IEEE 754 binary64 numbers, operation by operation.
    [math.log10] is the C library's and is a parameter. *)

Set Warnings "-inexact-float".

Module Binary64Scorer.

(** [min(a, b)]: the first argument unless the second is smaller. *)
Definition min (a b : float) : float := if PrimFloat.ltb b a then b else a.

Definition _norm (v : option float) (lo hi : float) : float :=
  match v with
  | None => 0%float
  | Some x =>
      if PrimFloat.eqb hi lo then 0%float
      else Binary64.max 0%float
             (min 1%float (PrimFloat.div (PrimFloat.sub x lo) (PrimFloat.sub hi lo)))
  end.

Definition score_deal (log10 : Z -> float) (price rating : option float)
    (reviews : option Z) : float :=
  let price_score :=
    match price with
    | Some _ => PrimFloat.sub 1%float (_norm price 100%float 50000%float)
    | None => 0%float
    end in
  let rating_score :=
    match rating with
    | None => 0%float
    | Some r => PrimFloat.div r 5%float
    end in
  let reviews_score :=
    match reviews with
    | Some n => min 1%float (PrimFloat.div (log10 (Z.max 1 n)) 3%float)
    | None => 0%float
    end in
  Binary64.round
    (PrimFloat.add
       (PrimFloat.add (PrimFloat.mul 0.5%float price_score)
                      (PrimFloat.mul 0.35%float rating_score))
       (PrimFloat.mul 0.15%float reviews_score))
    4.


End Binary64Scorer.

(** ** Rounding and logarithm as relations

    What [rounded to k decimal places] and [log10] mean, stated without
    the functions that compute them. *)




(** A deal with a given price and the defaults of the schema. *)
Definition sample_deal (p : R) : Deal :=
  {| platform := "amazon"; title := "Sample"; price := p;
     original_price := None; discount_percent := None; rating := None;
     reviews_count := None; quality_score := None; image_urls := [];
     product_url := None; delivery := None; created_at := None |}.

(** A condition on an optional argument: it binds the value when present. *)
Definition when_present {A : Type} (P : A -> Prop) (o : option A) : Prop :=
  match o with
  | Some x => P x
  | None => True
  end.

(** Permutations of short explicit lists, element by element. *)
Ltac perm_list :=
  repeat first
    [ apply Permutation_refl
    | apply perm_skip
    | apply (Permutation_cons_app [_]); cbn [app]
    | apply (Permutation_cons_app [_; _]); cbn [app]
    | apply (Permutation_cons_app [_; _; _]); cbn [app] ].

(** ** The built-ins on concrete inputs *)

Section Examples.

Local Open Scope string_scope.

Example title_words : Str.title "gaming laptop" = "Gaming Laptop".
Proof. reflexivity. Qed.

Example title_mixed :
  Str.title "hELLO wORLD it's 3d-printer" = "Hello World It'S 3D-Printer".
Proof. reflexivity. Qed.

Example capitalize_platform : Str.capitalize "aMAZON" = "Amazon".
Proof. reflexivity. Qed.

Example replace_spaces : Str.replace " " "+" "gaming laptop pro" = "gaming+laptop+pro".
Proof. reflexivity. Qed.

Example join_three : Str.join ", " ["a"; "b"; "c"] = "a, b, c".
Proof. reflexivity. Qed.

Example of_Z_negative : Str.of_Z (-42) = "-42".
Proof. reflexivity. Qed.

Example slice_short : slice 1 3 [1; 2]%nat = [2]%nat.
Proof. reflexivity. Qed.

Example slice_long : slice 1 3 [1; 2; 3; 4; 5]%nat = [2; 3]%nat.
Proof. reflexivity. Qed.

Example sort_ascending_keeps_ties :
  list_sort Z.leb fst false [(1, "a"); (2, "b"); (1, "c"); (2, "d"); (0, "e")]%Z
  = [(0, "e"); (1, "a"); (1, "c"); (2, "b"); (2, "d")]%Z.
Proof. reflexivity. Qed.

Example sort_descending_keeps_ties :
  list_sort Z.leb fst true [(1, "a"); (2, "b"); (1, "c"); (2, "d"); (0, "e")]%Z
  = [(2, "b"); (2, "d"); (1, "a"); (1, "c"); (0, "e")]%Z.
Proof. reflexivity. Qed.

Example deal_title :
  title (make_deal (fun _ => 0%Z) "gaming laptop" 2 "myntra" 120 4.6 540)
  = "Gaming Laptop – Top Pick #3".
Proof. reflexivity. Qed.

Example deal_url :
  product_url (make_deal (fun _ => 0%Z) "gaming laptop" 2 "myntra" 120 4.6 540)
  = Some "https://myntra.com/s?k=gaming+laptop".
Proof. reflexivity. Qed.

Example round_half_goes_to_even :
  Py.round 0.00025 4 = 0.0002 /\ Py.round 0.00035 4 = 0.0004.
Proof.
  unfold Py.round, Py.round_half_even.
  replace (0.00025 * 10 ^ 4) with (5 / 2) by lra.
  replace (0.00035 * 10 ^ 4) with (7 / 2) by lra.
  rewrite (Zfloor_eq 2 (5 / 2)), (Zfloor_eq 3 (7 / 2)) by lra.
  repeat (destruct (Rlt_dec _ _); try lra).
  change (if Z.even 2 then 2%Z else (2 + 1)%Z) with 2%Z.
  change (if Z.even 3 then 3%Z else (3 + 1)%Z) with 4%Z.
  split; lra.
Qed.

End Examples.

(** ** Facts about rounding *)

Section Rounding.

Lemma round_half_even_IZR (n : Z) : Py.round_half_even (IZR n) = n.
Proof.
  unfold Py.round_half_even. rewrite ZfloorZ.
  destruct (Rlt_dec (IZR n - IZR n) (1 / 2)) as [_ | H]; [reflexivity | lra].
Qed.

Lemma round_half_even_lower (a : Z) (x : R) :
  IZR a <= x -> (a <= Py.round_half_even x)%Z.
Proof.
  intros H. apply Zfloor_lub in H. unfold Py.round_half_even.
  destruct (Rlt_dec _ _); [lia |].
  destruct (Rlt_dec _ _); [lia |].
  destruct (Z.even _); lia.
Qed.

Lemma round_half_even_upper (b : Z) (x : R) :
  x <= IZR b -> (Py.round_half_even x <= b)%Z.
Proof.
  intros H. unfold Py.round_half_even.
  pose proof (Zfloor_bound x) as [Hlo Hhi].
  assert (Hfb : (Zfloor x <= b)%Z) by (apply le_IZR; lra).
  destruct (Rlt_dec _ _) as [_ | Hd]; [exact Hfb |].
  assert (Hlt : (Zfloor x < b)%Z).
  { apply lt_IZR. lra. }
  destruct (Rlt_dec _ _); [lia |].
  destruct (Z.even _); lia.
Qed.

Lemma round_exact (n : Z) (k : nat) (x : R) :
  x * 10 ^ k = IZR n -> Py.round x k = IZR n / 10 ^ k.
Proof.
  intros H. unfold Py.round. now rewrite H, round_half_even_IZR.
Qed.

Lemma pow10_pos (k : nat) : 0 < 10 ^ k.
Proof. apply pow_lt. lra. Qed.

Lemma scale_le_l (a : Z) (k : nat) (x : R) :
  IZR a / 10 ^ k <= x -> IZR a <= x * 10 ^ k.
Proof.
  intros Ha. pose proof (pow10_pos k) as Hk.
  apply (Rmult_le_compat_r (10 ^ k)) in Ha; [| lra].
  unfold Rdiv in Ha. rewrite Rmult_assoc, Rinv_l, Rmult_1_r in Ha; lra.
Qed.

Lemma scale_le_r (b : Z) (k : nat) (x : R) :
  x <= IZR b / 10 ^ k -> x * 10 ^ k <= IZR b.
Proof.
  intros Hb. pose proof (pow10_pos k) as Hk.
  apply (Rmult_le_compat_r (10 ^ k)) in Hb; [| lra].
  unfold Rdiv in Hb. rewrite Rmult_assoc, Rinv_l, Rmult_1_r in Hb; lra.
Qed.

Lemma round_lower (a : Z) (k : nat) (x : R) :
  IZR a / 10 ^ k <= x -> IZR a / 10 ^ k <= Py.round x k.
Proof.
  intros Ha. apply scale_le_l, round_half_even_lower, IZR_le in Ha.
  unfold Py.round. apply Rmult_le_compat_r; [| exact Ha].
  left. apply Rinv_0_lt_compat, pow10_pos.
Qed.

Lemma round_upper (b : Z) (k : nat) (x : R) :
  x <= IZR b / 10 ^ k -> Py.round x k <= IZR b / 10 ^ k.
Proof.
  intros Hb. apply scale_le_r, round_half_even_upper, IZR_le in Hb.
  unfold Py.round. apply Rmult_le_compat_r; [| exact Hb].
  left. apply Rinv_0_lt_compat, pow10_pos.
Qed.

Lemma round_bounds (a b : Z) (k : nat) (x : R) :
  IZR a / 10 ^ k <= x <= IZR b / 10 ^ k ->
  IZR a / 10 ^ k <= Py.round x k <= IZR b / 10 ^ k.
Proof.
  intros [Ha Hb]. split; [now apply round_lower | now apply round_upper].
Qed.

End Rounding.

(** ** The scorer against its specification *)

Section ScoreFacts.

Lemma log10_1 : Py.log10 1 = 0.
Proof. unfold Py.log10. rewrite ln_1. lra. Qed.

Lemma ln10_pos : 0 < ln 10.
Proof. rewrite <- ln_1. apply ln_increasing; lra. Qed.

Lemma log10_1000 : Py.log10 1000 = 3.
Proof.
  unfold Py.log10. replace 1000 with (10 ^ 3) by lra.
  rewrite ln_pow by lra. simpl INR. pose proof ln10_pos. field. lra.
Qed.

Lemma log10_nonneg (x : R) : 1 <= x -> 0 <= Py.log10 x.
Proof.
  intros Hx. unfold Py.log10. pose proof ln10_pos as H10.
  assert (0 <= ln x).
  { destruct Hx as [Hx | <-]; [| rewrite ln_1; lra].
    left. rewrite <- ln_1. apply ln_increasing; lra. }
  apply Rmult_le_pos; [assumption |]. left. now apply Rinv_0_lt_compat.
Qed.


Lemma norm_unit (v : option R) (lo hi : R) : 0 <= _norm v lo hi <= 1.
Proof.
  unfold _norm. destruct v as [x |]; [| lra].
  destruct (Req_dec_T hi lo); [lra |].
  unfold Rmax, Rmin. repeat destruct (Rle_dec _ _); lra.
Qed.

End ScoreFacts.

(** ** Claims about the scorer *)

Lemma score_at_lower_corner :
  score_deal (Some 100) (Some 0) (Some 0%Z) = 0.5.
Proof.
  unfold score_deal, _norm.
  destruct (Req_dec_T 50000 100) as [E | _]; [lra |].
  change (Z.max 1 0) with 1%Z. rewrite log10_1.
  replace ((100 - 100) / (50000 - 100)) with 0 by (field; lra).
  replace (0 / 3) with 0 by lra.
  replace (Rmin 1 0) with 0 by (unfold Rmin; destruct (Rle_dec 1 0); lra).
  replace (Rmax 0 0) with 0 by (unfold Rmax; destruct (Rle_dec 0 0); lra).
  rewrite (round_exact 5000); lra.
Qed.

Lemma score_at_upper_corner :
  score_deal (Some 50000) (Some 5) (Some 1000%Z) = 0.5.
Proof.
  unfold score_deal, _norm.
  destruct (Req_dec_T 50000 100) as [E | _]; [lra |].
  change (Z.max 1 1000) with 1000%Z. rewrite log10_1000.
  replace ((50000 - 100) / (50000 - 100)) with 1 by (field; lra).
  replace (3 / 3) with 1 by lra.
  replace (Rmin 1 1) with 1 by (unfold Rmin; destruct (Rle_dec 1 1); lra).
  replace (Rmax 0 1) with 1 by (unfold Rmax; destruct (Rle_dec 0 1); lra).
  rewrite (round_exact 5000); lra.
Qed.

(** C2, as stated, fails: at price 50000, rating 5 and 1000 reviews the
    score is not within one unit of the fourth decimal place of 0.85. *)
Lemma upper_corner_is_not_085 :
  ~ (score_deal (Some 100) (Some 0) (Some 0%Z) = 0.5
     /\ Rabs (score_deal (Some 50000) (Some 5) (Some 1000%Z) - 0.85) <= 0.0001).
Proof.
  intros [_ H]. rewrite score_at_upper_corner in H.
  unfold Rabs in H. destruct (Rcase_abs (0.5 - 0.85)); lra.
Qed.

(** C2, amended.  [score(price=100, rating=0, reviewCount=0)] is 0.5, and
    [score(price=50000, rating=5, reviewCount=1000)] is 0.5 as well: the
    price term vanishes at the top of the price range and the rating and
    review terms contribute 0.35 and 0.15. *)
Theorem score_boundary_cases :
  score_deal (Some 100) (Some 0) (Some 0%Z) = 0.5
  /\ score_deal (Some 50000) (Some 5) (Some 1000%Z) = 0.5.
Proof. split; [apply score_at_lower_corner | apply score_at_upper_corner]. Qed.

(** C3.  For a price that is non-negative, a rating in [0,5] and a
    non-negative review count (each either given or absent) the score lies
    in [0,1]. *)
Theorem score_deal_unit_interval (price0 rating0 : option R) (reviews : option Z) :
  when_present (fun p => 0 <= p) price0 ->
  when_present (fun r => 0 <= r <= 5) rating0 ->
  when_present (fun n => (0 <= n)%Z) reviews ->
  0 <= score_deal price0 rating0 reviews <= 1.
Proof.
  intros _ Hr _. unfold score_deal.
  set (ps := match price0 with Some _ => _ | None => 0 end).
  set (rs := match rating0 with Some r => r / 5 | None => 0 end).
  set (vs := match reviews with Some n => _ | None => 0 end).
  assert (Hps : 0 <= ps <= 1).
  { subst ps. destruct price0; [| lra].
    pose proof (norm_unit (Some r) 100 50000). lra. }
  assert (Hrs : 0 <= rs <= 1).
  { subst rs. destruct rating0 as [r |]; simpl in Hr; lra. }
  assert (Hvs : 0 <= vs <= 1).
  { subst vs. destruct reviews as [n |]; [| lra].
    assert (H1 : 1 <= IZR (Z.max 1 n)) by (apply IZR_le; lia).
    apply log10_nonneg in H1.
    unfold Rmin. destruct (Rle_dec _ _); lra. }
  pose proof (round_bounds 0 10000 4
                (0.5 * ps + 0.35 * rs + 0.15 * vs)) as Hb.
  replace (IZR 0 / 10 ^ 4) with 0 in Hb by lra.
  replace (IZR 10000 / 10 ^ 4) with 1 in Hb by lra.
  apply Hb. lra.
Qed.

Lemma score_deal_unit_interval_witness :
  0 <= score_deal (Some 999) (Some 4.5) (Some 1250%Z) <= 1.
Proof.
  apply score_deal_unit_interval; simpl; [lra | lra | lia].
Defined.

(** ** Facts about [list.sort] *)

Section SortFacts.

Context {A K : Type}.
Variable leb : K -> K -> bool.
Variable key : A -> K.

Hypothesis leb_total : forall x y, leb x y = true \/ leb y x = true.
Hypothesis leb_trans :
  forall x y z, leb x y = true -> leb y z = true -> leb x z = true.

Local Abbreviation le := (key_le leb key).
Local Abbreviation ge := (key_ge leb key).
Local Abbreviation tie := (tied leb key).

Lemma insert_perm (x : A) (l : list A) :
  Permutation (insert leb key x l) (x :: l).
Proof.
  induction l as [| y l IH]; simpl; [reflexivity |].
  destruct (leb (key x) (key y)); [reflexivity |].
  rewrite IH. apply perm_swap.
Qed.

Lemma stable_sort_perm (l : list A) : Permutation (stable_sort leb key l) l.
Proof.
  induction l as [| x l IH]; simpl; [reflexivity |].
  rewrite insert_perm. now constructor.
Qed.

Lemma insert_sorted (x : A) (l : list A) :
  StronglySorted le l -> StronglySorted le (insert leb key x l).
Proof.
  induction 1 as [| y l Hs IH Hy]; simpl.
  - constructor; constructor.
  - destruct (leb (key x) (key y)) eqn:E.
    + constructor; [now constructor |].
      constructor; [exact E |].
      eapply Forall_impl; [| exact Hy].
      intros z Hz. unfold key_le in *. eauto.
    + constructor; [exact IH |].
      assert (Hyx : le y x).
      { unfold key_le. destruct (leb_total (key x) (key y)); congruence. }
      rewrite Forall_forall in *. intros z Hz.
      apply (Permutation_in _ (insert_perm x l)) in Hz.
      destruct Hz as [<- | Hz]; auto.
Qed.

Lemma stable_sort_sorted (l : list A) : StronglySorted le (stable_sort leb key l).
Proof.
  induction l as [| x l IH]; simpl; [constructor | now apply insert_sorted].
Qed.

Lemma filter_insert (a : K) (x : A) (l : list A) :
  filter (tie a) (insert leb key x l) = filter (tie a) (x :: l).
Proof.
  induction l as [| y l IH]; [reflexivity |]. cbn [insert].
  destruct (leb (key x) (key y)) eqn:E; [reflexivity |].
  cbn [filter] in *. rewrite IH.
  destruct (tie a x) eqn:Ex; [| reflexivity].
  destruct (tie a y) eqn:Ey; [| reflexivity].
  unfold tied in Ex, Ey.
  apply andb_true_iff in Ex as [_ Hxa], Ey as [Hay _].
  rewrite (leb_trans _ _ _ Hxa Hay) in E. discriminate.
Qed.

Lemma stable_sort_stable (a : K) (l : list A) :
  filter (tie a) (stable_sort leb key l) = filter (tie a) l.
Proof.
  induction l as [| x l IH]; [reflexivity |].
  cbn [stable_sort]. rewrite filter_insert. cbn [filter]. now rewrite IH.
Qed.

Lemma sorted_snoc (R : A -> A -> Prop) (l : list A) (a : A) :
  StronglySorted R l -> Forall (fun x => R x a) l -> StronglySorted R (l ++ [a]).
Proof.
  induction 1 as [| y l Hs IH Hy]; intros Ha; simpl.
  - constructor; constructor.
  - inversion Ha; subst. constructor; [auto |].
    apply Forall_app. split; [exact Hy | constructor; [assumption | constructor]].
Qed.

Lemma sorted_rev (R : A -> A -> Prop) (l : list A) :
  StronglySorted R l -> StronglySorted (fun a b => R b a) (rev l).
Proof.
  induction 1 as [| y l Hs IH Hy]; simpl; [constructor |].
  apply sorted_snoc; [exact IH |].
  apply Forall_rev. exact Hy.
Qed.

Lemma list_sort_perm (reverse : bool) (l : list A) :
  Permutation (list_sort leb key reverse l) l.
Proof.
  unfold list_sort. destruct reverse; [| apply stable_sort_perm].
  rewrite <- Permutation_rev, stable_sort_perm. symmetry. apply Permutation_rev.
Qed.

Lemma list_sort_ascending (l : list A) :
  StronglySorted le (list_sort leb key false l).
Proof. apply stable_sort_sorted. Qed.

Lemma list_sort_descending (l : list A) :
  StronglySorted ge (list_sort leb key true l).
Proof.
  unfold list_sort.
  apply (sorted_rev le). apply stable_sort_sorted.
Qed.

Lemma filter_rev (f : A -> bool) (l : list A) :
  filter f (rev l) = rev (filter f l).
Proof.
  induction l as [| x l IH]; [reflexivity |]. simpl.
  rewrite filter_app, IH. simpl.
  destruct (f x); simpl; [reflexivity | now rewrite app_nil_r].
Qed.

Lemma list_sort_stable (reverse : bool) (a : K) (l : list A) :
  filter (tie a) (list_sort leb key reverse l) = filter (tie a) l.
Proof.
  unfold list_sort. destruct reverse; [| apply stable_sort_stable].
  rewrite filter_rev, stable_sort_stable, filter_rev. apply rev_involutive.
Qed.

(** A list sorted on pairwise distinct keys has only one sorted order. *)

Hypothesis leb_antisym :
  forall x y, leb x y = true -> leb y x = true -> x = y.

Lemma sorted_unique (l1 l2 : list A) :
  Permutation l1 l2 ->
  StronglySorted le l1 -> StronglySorted le l2 ->
  NoDup (map key l1) ->
  l1 = l2.
Proof.
  revert l2. induction l1 as [| a l1 IH]; intros l2 Hp Hs1 Hs2 Hnd.
  - apply Permutation_nil in Hp. now subst.
  - destruct l2 as [| b l2].
    { symmetry in Hp. apply Permutation_nil in Hp. discriminate. }
    inversion Hs1 as [| ? ? Hs1' Ha]; subst.
    inversion Hs2 as [| ? ? Hs2' Hb]; subst.
    inversion Hnd as [| ? ? Hnotin Hnd']; subst.
    assert (Hab : a = b).
    { assert (Hin_a : In a (b :: l2)) by (eapply Permutation_in; [exact Hp | now left]).
      assert (Hin_b : In b (a :: l1)).
      { eapply Permutation_in; [symmetry; exact Hp | now left]. }
      destruct Hin_a as [-> | Hin_a]; [reflexivity |].
      destruct Hin_b as [-> | Hin_b]; [reflexivity |].
      rewrite Forall_forall in Ha, Hb.
      pose proof (leb_antisym _ _ (Ha _ Hin_b) (Hb _ Hin_a)) as E.
      exfalso. apply Hnotin. rewrite E. now apply in_map. }
    subst b. f_equal. apply IH; auto.
    now apply Permutation_cons_inv in Hp.
Qed.

Lemma stable_sort_rev (l : list A) :
  NoDup (map key l) ->
  stable_sort leb key (rev l) = stable_sort leb key l.
Proof.
  intros Hnd. apply sorted_unique.
  - rewrite !stable_sort_perm. symmetry. apply Permutation_rev.
  - apply stable_sort_sorted.
  - apply stable_sort_sorted.
  - eapply Permutation_NoDup; [| exact Hnd].
    apply Permutation_map. rewrite stable_sort_perm. apply Permutation_rev.
Qed.

Lemma list_sort_reverse_distinct (l : list A) :
  NoDup (map key l) ->
  rev (list_sort leb key false l) = list_sort leb key true l.
Proof.
  intros Hnd. unfold list_sort. now rewrite stable_sort_rev.
Qed.

End SortFacts.

(** ** The orders used by the handlers *)

Section Orders.

Lemma Rleb_le (x y : R) : Py.Rleb x y = true <-> x <= y.
Proof. unfold Py.Rleb. destruct (Rle_dec x y); split; intros; auto; discriminate. Qed.

Lemma Rleb_total (x y : R) : Py.Rleb x y = true \/ Py.Rleb y x = true.
Proof. rewrite !Rleb_le. lra. Qed.

Lemma Rleb_trans (x y z : R) :
  Py.Rleb x y = true -> Py.Rleb y z = true -> Py.Rleb x z = true.
Proof. rewrite !Rleb_le. lra. Qed.

Lemma Rleb_antisym (x y : R) :
  Py.Rleb x y = true -> Py.Rleb y x = true -> x = y.
Proof. rewrite !Rleb_le. lra. Qed.

Lemma tied_Reqb {A : Type} (key : A -> R) (k : R) (a : A) :
  tied Py.Rleb key k a = Py.Reqb (key a) k.
Proof.
  unfold tied, Py.Reqb.
  destruct (Req_dec_T (key a) k) as [-> | Hne].
  - apply andb_true_iff. split; apply Rleb_le; lra.
  - apply andb_false_iff.
    destruct (Rle_dec k (key a)) as [Hle | Hnle].
    + right. apply not_true_is_false. rewrite Rleb_le. lra.
    + left. apply not_true_is_false. now rewrite Rleb_le.
Qed.

Lemma sorted_weaken {A : Type} (P Q : A -> A -> Prop) (l : list A) :
  (forall a b, P a b -> Q a b) -> StronglySorted P l -> StronglySorted Q l.
Proof.
  intros HPQ. induction 1 as [| a l Hs IH Ha]; constructor; [exact IH |].
  eapply Forall_impl; [| exact Ha]. auto.
Qed.

Lemma sort_desc_R {A : Type} (key : A -> R) (l : list A) :
  StronglySorted (fun a b => key b <= key a) (list_sort Py.Rleb key true l).
Proof.
  eapply sorted_weaken; [| apply list_sort_descending].
  - intros a b H. now apply Rleb_le.
  - apply Rleb_total.
  - apply Rleb_trans.
Qed.

Lemma sort_stable_R {A : Type} (key : A -> R) (reverse : bool) (k : R) (l : list A) :
  filter (fun a => Py.Reqb (key a) k) (list_sort Py.Rleb key reverse l)
  = filter (fun a => Py.Reqb (key a) k) l.
Proof.
  rewrite <- !(filter_ext _ _ (tied_Reqb key k)).
  apply list_sort_stable. apply Rleb_trans.
Qed.

End Orders.

(** ** Claims about the synthesizer *)

Section SynthesizerFacts.

Local Open Scope string_scope.

Variable clock : nat -> datetime.
Variable q : string.

Lemma built_deals_eq :
  built_deals clock q =
  [ make_deal clock q 0 "amazon" 0 4.5 1250;
    make_deal clock q 1 "flipkart" (-50) 4.3 980;
    make_deal clock q 2 "myntra" 120 4.6 540;
    make_deal clock q 3 "ajio" (-100) 4.2 330 ].
Proof. reflexivity. Qed.

Lemma scrape_stub_perm : Permutation (scrape_stub clock q) (built_deals clock q).
Proof. apply list_sort_perm. Qed.

Lemma loop_price (delta : R) : 99 <= Rmax 99 (base_price + delta).
Proof. apply Rmax_l. Qed.

Lemma discount_is_20 (p : R) :
  0 < p -> Py.round ((1 - p / (p * 1.25)) * 100) 2 = 20.
Proof.
  intros Hp. rewrite (round_exact 2000); [lra |].
  replace (p * 1.25) with (p * (5 / 4)) by lra.
  replace (p / (p * (5 / 4))) with (4 / 5) by (field; lra). lra.
Qed.

Lemma make_deal_price_ge_99 (i : nat) (pf : string) (delta r : R) (n : Z) :
  99 <= price (make_deal clock q i pf delta r n).
Proof.
  cbn [make_deal price].
  pose proof (round_lower 9900 2 (Rmax 99 (base_price + delta))) as H.
  replace (IZR 9900 / 10 ^ 2) with 99 in H by lra.
  apply H, loop_price.
Qed.

Lemma make_deal_discount (i : nat) (pf : string) (delta r : R) (n : Z) :
  discount_percent (make_deal clock q i pf delta r n) = Some 20.
Proof.
  cbn [make_deal discount_percent]. f_equal.
  apply discount_is_20. pose proof (loop_price delta). lra.
Qed.

Lemma Rmax_99 (x : R) : 99 <= x -> Rmax 99 x = x.
Proof. intros H. unfold Rmax. destruct (Rle_dec 99 x); lra. Qed.

(** When the loop price has at most two decimals, rounding leaves the
    price and the original price as computed. *)
Lemma make_deal_fields (i : nat) (pf : string) (delta r : R) (n : Z) (a b : Z) :
  (base_price + delta) * 100 = IZR a ->
  (base_price + delta) * 125 = IZR b ->
  99 <= base_price + delta ->
  price (make_deal clock q i pf delta r n) = base_price + delta
  /\ original_price (make_deal clock q i pf delta r n)
     = Some (1.25 * price (make_deal clock q i pf delta r n)).
Proof.
  intros Ha Hb Hge. cbn [make_deal price original_price].
  rewrite (Rmax_99 _ Hge).
  rewrite (round_exact a) by lra.
  rewrite (round_exact b) by lra.
  split; [lra | f_equal; lra].
Qed.

Lemma built_deals_original (d : Deal) :
  In d (built_deals clock q) -> original_price d = Some (1.25 * price d).
Proof.
  rewrite built_deals_eq. unfold base_price.
  intros [<- | [<- | [<- | [<- | []]]]].
  - apply (make_deal_fields _ _ _ _ _ 99900 124875); unfold base_price; lra.
  - apply (make_deal_fields _ _ _ _ _ 94900 118625); unfold base_price; lra.
  - apply (make_deal_fields _ _ _ _ _ 111900 139875); unfold base_price; lra.
  - apply (make_deal_fields _ _ _ _ _ 89900 112375); unfold base_price; lra.
Qed.

Lemma built_deals_forall (P : Deal -> Prop) :
  (forall i pf delta r n, P (make_deal clock q i pf delta r n)) ->
  Forall P (built_deals clock q).
Proof. intros H. rewrite built_deals_eq. repeat constructor; apply H. Qed.

End SynthesizerFacts.

Lemma or_zero_Some (x : R) : Py.or_zero (Some x) = x.
Proof. unfold Py.or_zero. destruct (Req_dec_T x 0); congruence. Qed.

(** C5.  Every deal of the synthesizer has a discount of exactly 20: its
    original price is 1.25 times its price, and the discount is
    [round((1 - price/original) * 100, 2)]. *)
Theorem scrape_stub_discount_20 (clock : nat -> datetime) (q : string) :
  Forall (fun d =>
            discount_percent d = Some 20
            /\ original_price d = Some (1.25 * price d)
            /\ Py.round ((1 - price d / (1.25 * price d)) * 100) 2 = 20)
         (scrape_stub clock q).
Proof.
  eapply Permutation_Forall; [symmetry; apply scrape_stub_perm |].
  rewrite Forall_forall. intros d Hd. repeat split.
  - revert d Hd. rewrite <- Forall_forall.
    apply built_deals_forall. intros. apply make_deal_discount.
  - exact (built_deals_original clock q d Hd).
  - assert (H99 : 99 <= price d).
    { revert d Hd. rewrite <- Forall_forall.
      apply built_deals_forall. intros. apply make_deal_price_ge_99. }
    replace (1.25 * price d) with (price d * 1.25) by lra.
    apply discount_is_20. lra.
Qed.

(** The same lines evaluated in binary64.  The quotient [price / original]
    is the float nearest to 0.8, the product with 100 is the float just
    below 20 (printed 19.999999999999996), and rounding to two decimals
    gives 20; the rounded price and original price are the unrounded
    ones. *)
Lemma binary64_discount_20 :
  map Binary64.loop_ratio Binary64.deltas
  = [0x1.3ffffffffffffp+4%float; 0x1.3ffffffffffffp+4%float;
     0x1.3ffffffffffffp+4%float; 0x1.3ffffffffffffp+4%float]
  /\ map Binary64.loop_discount Binary64.deltas
     = [20%float; 20%float; 20%float; 20%float]
  /\ map (fun d => Binary64.round (Binary64.loop_price d) 2) Binary64.deltas
     = [999%float; 949%float; 1119%float; 899%float]
  /\ map (fun d => Binary64.round (Binary64.loop_original d) 2) Binary64.deltas
     = [1248.75%float; 1186.25%float; 1398.75%float; 1123.75%float].
Proof. repeat split; vm_compute; reflexivity. Qed.

(** ** Claims about filtering and sorting *)

Section FilterFacts.

Context {A : Type}.

Lemma filter_idem (f : A -> bool) (l : list A) :
  filter f (filter f l) = filter f l.
Proof.
  induction l as [| x l IH]; [reflexivity |]. simpl.
  destruct (f x) eqn:E; simpl; [rewrite E, IH |]; auto.
Qed.

Lemma filter_comm (f g : A -> bool) (l : list A) :
  filter f (filter g l) = filter g (filter f l).
Proof.
  induction l as [| x l IH]; [reflexivity |]. simpl.
  destruct (f x) eqn:Ef, (g x) eqn:Eg; simpl; rewrite ?Ef, ?Eg, IH; reflexivity.
Qed.

End FilterFacts.

(** C7.  Filtering by price bounds is idempotent: with the same optional
    bounds, filtering the filtered list changes nothing. *)
Theorem filter_price_idempotent (lo hi : option R) (ds : list Deal) :
  filter_price lo hi (filter_price lo hi ds) = filter_price lo hi ds.
Proof.
  unfold filter_price, filter_max_price, filter_min_price.
  destruct lo as [m |], hi as [n |]; try reflexivity.
  - rewrite (filter_comm (fun d => Py.Rgeb (price d) m)
                         (fun d => Py.Rleb (price d) n)
                         (filter (fun d => Py.Rgeb (price d) m) ds)).
    now rewrite (filter_idem (fun d => Py.Rgeb (price d) m)), filter_idem.
  - apply filter_idem.
  - apply filter_idem.
Qed.

(** C6.  A sort directive other than [price_low], [price_high], [rating]
    and [reviews] sorts as [best] does: by descending quality score, an
    absent quality score counting as 0. *)
Theorem unknown_directive_sorts_as_best (s : string) (ds : list Deal) :
  s <> "price_low"%string -> s <> "price_high"%string ->
  s <> "rating"%string -> s <> "reviews"%string ->
  sort_deals (Some s) ds = sort_deals (Some "best"%string) ds
  /\ sort_deals (Some "best"%string) ds = list_sort Py.Rleb score_key true ds
  /\ Permutation (sort_deals (Some s) ds) ds
  /\ StronglySorted (fun a b => score_key b <= score_key a) (sort_deals (Some s) ds).
Proof.
  intros H1 H2 H3 H4.
  assert (E : sort_deals (Some s) ds = list_sort Py.Rleb score_key true ds).
  { unfold sort_deals, Str.opt_eqb.
    apply String.eqb_neq in H1, H2, H3, H4. now rewrite H1, H2, H3, H4. }
  rewrite E. repeat split.
  - apply list_sort_perm.
  - apply sort_desc_R.
Qed.

(** C8.  When no two deals have the same price, the reverse of the
    [price_low] order is the [price_high] order. *)
Theorem price_low_reversed_is_price_high (ds : list Deal) :
  NoDup (map price ds) ->
  rev (sort_deals (Some "price_low"%string) ds)
  = sort_deals (Some "price_high"%string) ds.
Proof.
  intros Hnd. unfold sort_deals. simpl Str.opt_eqb. cbv iota.
  apply list_sort_reverse_distinct; auto.
  - apply Rleb_total.
  - apply Rleb_trans.
  - apply Rleb_antisym.
Qed.

Lemma unknown_directive_sorts_as_best_witness :
  sort_deals (Some "banana"%string) [sample_deal 20; sample_deal 10]
  = sort_deals (Some "best"%string) [sample_deal 20; sample_deal 10]
  /\ sort_deals (Some "best"%string) [sample_deal 20; sample_deal 10]
     = list_sort Py.Rleb score_key true [sample_deal 20; sample_deal 10]
  /\ Permutation (sort_deals (Some "banana"%string) [sample_deal 20; sample_deal 10])
       [sample_deal 20; sample_deal 10]
  /\ StronglySorted (fun a b => score_key b <= score_key a)
       (sort_deals (Some "banana"%string) [sample_deal 20; sample_deal 10]).
Proof.
  apply (unknown_directive_sorts_as_best "banana" [sample_deal 20; sample_deal 10]);
    discriminate.
Defined.

Lemma price_low_reversed_is_price_high_witness :
  rev (sort_deals (Some "price_low"%string) [sample_deal 20; sample_deal 10])
  = sort_deals (Some "price_high"%string) [sample_deal 20; sample_deal 10].
Proof.
  apply (price_low_reversed_is_price_high [sample_deal 20; sample_deal 10]).
  simpl. constructor.
  - simpl. intros [H | []]. lra.
  - constructor; [simpl; tauto | constructor].
Defined.

(** ** Claims about the pitch *)

Section PitchFacts.

Local Open Scope string_scope.

Variable float_str : R -> string.

Lemma append_assoc (s1 s2 s3 : string) : (s1 ++ s2) ++ s3 = s1 ++ (s2 ++ s3).
Proof. induction s1 as [| c s1 IH]; simpl; [| rewrite IH]; reflexivity. Qed.

Lemma alt_text_single (d : Deal) : alt_text [d] = "".
Proof. reflexivity. Qed.

End PitchFacts.

(** C9.  On the empty list of deals the pitch is the apology template,
    and the query appears in it as it was given. *)
Theorem craft_pitch_empty (float_str : R -> string) (q : string) :
  craft_pitch float_str q []
  = ("I couldn't find great matches for ‘" ++ q
     ++ "’ right now. Try refining the product name or category, and I'll hunt for fresh deals.")%string
  /\ Str.contains q (craft_pitch float_str q []).
Proof.
  split; [reflexivity |].
  exists "I couldn't find great matches for ‘"%string. eexists. reflexivity.
Qed.

(** C10.  On a list of exactly one deal the pitch takes the branch for
    deals, finds no alternative to name, and still says
    [I can also get you options from] followed at once by a full stop and
    a space. *)
Theorem craft_pitch_single (float_str : R -> string) (q : string) (d : Deal) :
  alt_text [d] = ""%string
  /\ (exists before : string,
        craft_pitch float_str q [d]
        = (before ++ "I can also get you options from " ++ ". "
           ++ "Want me to open the best offer for you?")%string)
  /\ Str.contains "I can also get you options from . " (craft_pitch float_str q [d]).
Proof.
  split; [reflexivity |].
  assert (H : exists before : string,
             craft_pitch float_str q [d]
             = (before ++ "I can also get you options from " ++ ". "
                ++ "Want me to open the best offer for you?")%string).
  { exists ("If you're looking for " ++ q ++ ", my best pick is on "
            ++ Str.capitalize (platform d) ++ " at ₹"
            ++ Str.of_Z (Py.int (price d)) ++ " "
            ++ "with " ++ fmt_float float_str (discount_percent d)
            ++ "% off and a solid "
            ++ fmt_float float_str (rating d) ++ "★ from "
            ++ fmt_int (reviews_count d) ++ "+ reviews. ")%string.
    unfold craft_pitch. rewrite alt_text_single.
    rewrite !append_assoc. reflexivity. }
  split; [exact H |].
  destruct H as [before ->].
  exists before, "Want me to open the best offer for you?"%string. reflexivity.
Qed.

(** ** The order of the synthesized deals

    The four quality scores are pairwise distinct, so the order in which
    [scrape_stub] returns the platforms is fixed: amazon, myntra, flipkart,
    ajio. *)

Section SynthesizedOrder.

Local Open Scope string_scope.

Lemma ln_mono (x y : R) : 0 < x -> x <= y -> ln x <= ln y.
Proof.
  intros Hx [Hlt | ->]; [left; now apply ln_increasing | lra].
Qed.

Lemma log10_lower (x : R) (a b : nat) :
  (0 < b)%nat -> 0 < x -> 10 ^ a <= x ^ b -> INR a / INR b <= Py.log10 x.
Proof.
  intros Hb Hx Hpow. pose proof ln10_pos as H10.
  assert (HbR : 0 < INR b) by (apply lt_0_INR; exact Hb).
  apply ln_mono in Hpow; [| apply pow_lt; lra].
  rewrite !ln_pow in Hpow by lra.
  unfold Py.log10.
  apply (Rmult_le_reg_r (INR b * ln 10)); [apply Rmult_lt_0_compat; lra |].
  replace (INR a / INR b * (INR b * ln 10)) with (INR a * ln 10) by (field; lra).
  replace (ln x / ln 10 * (INR b * ln 10)) with (INR b * ln x) by (field; lra).
  exact Hpow.
Qed.

Lemma log10_upper (x : R) (a b : nat) :
  (0 < b)%nat -> 0 < x -> x ^ b <= 10 ^ a -> Py.log10 x <= INR a / INR b.
Proof.
  intros Hb Hx Hpow. pose proof ln10_pos as H10.
  assert (HbR : 0 < INR b) by (apply lt_0_INR; exact Hb).
  apply ln_mono in Hpow; [| apply pow_lt; lra].
  rewrite !ln_pow in Hpow by lra.
  unfold Py.log10.
  apply (Rmult_le_reg_r (INR b * ln 10)); [apply Rmult_lt_0_compat; lra |].
  replace (INR a / INR b * (INR b * ln 10)) with (INR a * ln 10) by (field; lra).
  replace (ln x / ln 10 * (INR b * ln 10)) with (INR b * ln x) by (field; lra).
  exact Hpow.
Qed.

Lemma norm_in_range (p : R) :
  100 <= p <= 50000 -> _norm (Some p) 100 50000 = (p - 100) / 49900.
Proof.
  intros Hp. unfold _norm.
  destruct (Req_dec_T 50000 100) as [E | _]; [lra |].
  replace (50000 - 100) with 49900 by lra.
  assert (0 <= (p - 100) / 49900 <= 1) by (split; lra).
  unfold Rmax, Rmin. repeat destruct (Rle_dec _ _); lra.
Qed.

Lemma Rmin_1_mono (x y : R) : x <= y -> Rmin 1 x <= Rmin 1 y.
Proof. intros H. unfold Rmin. repeat destruct (Rle_dec _ _); lra. Qed.

(** Bounds on a score from bounds on the logarithm of the review count. *)
Lemma score_between (p r : R) (n : Z) (l h : R) (a b : Z) :
  100 <= p <= 50000 -> (1 <= n)%Z ->
  l <= Py.log10 (IZR n) <= h ->
  IZR a / 10 ^ 4
    <= 0.5 * (1 - (p - 100) / 49900) + 0.35 * (r / 5) + 0.15 * Rmin 1 (l / 3) ->
  0.5 * (1 - (p - 100) / 49900) + 0.35 * (r / 5) + 0.15 * Rmin 1 (h / 3)
    <= IZR b / 10 ^ 4 ->
  IZR a / 10 ^ 4 <= score_deal (Some p) (Some r) (Some n) <= IZR b / 10 ^ 4.
Proof.
  intros Hp Hn [Hl Hh] Ha Hb. unfold score_deal.
  rewrite (norm_in_range p Hp). rewrite Z.max_r by exact Hn.
  apply round_bounds.
  assert (H1 : Rmin 1 (l / 3) <= Rmin 1 (Py.log10 (IZR n) / 3))
    by (apply Rmin_1_mono; lra).
  assert (H2 : Rmin 1 (Py.log10 (IZR n) / 3) <= Rmin 1 (h / 3))
    by (apply Rmin_1_mono; lra).
  lra.
Qed.

Lemma Rmin_1_r (x : R) : x <= 1 -> Rmin 1 x = x.
Proof. intros H. unfold Rmin. destruct (Rle_dec 1 x); lra. Qed.

Lemma Rmin_1_l (x : R) : 1 <= x -> Rmin 1 x = 1.
Proof. intros H. unfold Rmin. destruct (Rle_dec 1 x); lra. Qed.

Lemma score_amazon : 0.9559 <= score_deal (Some 999) (Some 4.5) (Some 1250%Z) <= 0.9560.
Proof.
  pose proof (score_between 999 4.5 1250 3 4 9559 9560) as H.
  replace (IZR 9559 / 10 ^ 4) with 0.9559 in H by lra.
  replace (IZR 9560 / 10 ^ 4) with 0.9560 in H by lra.
  apply H; clear H; try lra; try lia.
  - split.
    + replace 3 with (INR 3 / INR 1) by (simpl; lra).
      apply log10_lower; [lia | lra | lra].
    + replace 4 with (INR 4 / INR 1) by (simpl; lra).
      apply log10_upper; [lia | lra | lra].
  - rewrite Rmin_1_l; lra.
  - rewrite Rmin_1_l; lra.
Qed.

Lemma score_myntra : 0.9467 <= score_deal (Some 1119) (Some 4.6) (Some 540%Z) <= 0.9518.
Proof.
  pose proof (score_between 1119 4.6 540 (27 / 10) (14 / 5) 9467 9518) as H.
  replace (IZR 9467 / 10 ^ 4) with 0.9467 in H by lra.
  replace (IZR 9518 / 10 ^ 4) with 0.9518 in H by lra.
  apply H; clear H; try lra; try lia.
  - split.
    + replace (27 / 10) with (INR 27 / INR 10) by (simpl; lra).
      apply log10_lower; [lia | lra | lra].
    + replace (14 / 5) with (INR 14 / INR 5) by (simpl; lra).
      apply log10_upper; [lia | lra | lra].
  - rewrite Rmin_1_r; lra.
  - rewrite Rmin_1_r; lra.
Qed.

Lemma score_flipkart : 0.9374 <= score_deal (Some 949) (Some 4.3) (Some 980%Z) <= 0.9425.
Proof.
  pose proof (score_between 949 4.3 980 (29 / 10) 3 9374 9425) as H.
  replace (IZR 9374 / 10 ^ 4) with 0.9374 in H by lra.
  replace (IZR 9425 / 10 ^ 4) with 0.9425 in H by lra.
  apply H; clear H; try lra; try lia.
  - split.
    + replace (29 / 10) with (INR 29 / INR 10) by (simpl; lra).
      apply log10_lower; [lia | lra | lra].
    + replace 3 with (INR 3 / INR 1) by (simpl; lra).
      apply log10_upper; [lia | lra | lra].
  - rewrite Rmin_1_r; lra.
  - rewrite Rmin_1_l; lra.
Qed.

Lemma score_ajio : 0 <= score_deal (Some 899) (Some 4.2) (Some 330%Z) <= 0.9360.
Proof.
  pose proof (score_between 899 4.2 330 0 3 0 9360) as H.
  replace (IZR 0 / 10 ^ 4) with 0 in H by lra.
  replace (IZR 9360 / 10 ^ 4) with 0.9360 in H by lra.
  apply H; clear H; try lra; try lia.
  - split.
    + apply log10_nonneg. lra.
    + replace 3 with (INR 3 / INR 1) by (simpl; lra).
      apply log10_upper; [lia | lra | lra].
  - rewrite Rmin_1_r; lra.
  - rewrite Rmin_1_l; lra.
Qed.

Lemma score_key_make_deal (clock : nat -> datetime) (q : string) (i : nat) (pf : string)
    (delta r : R) (n : Z) (p : R) :
  p = base_price + delta -> 99 <= p ->
  score_key (make_deal clock q i pf delta r n)
  = score_deal (Some p) (Some r) (Some n).
Proof.
  intros -> Hp. unfold score_key. cbn [make_deal quality_score].
  now rewrite or_zero_Some, Rmax_99.
Qed.

Theorem scrape_stub_order (clock : nat -> datetime) (q : string) :
  scrape_stub clock q =
  [ make_deal clock q 0 "amazon" 0 4.5 1250;
    make_deal clock q 2 "myntra" 120 4.6 540;
    make_deal clock q 1 "flipkart" (-50) 4.3 980;
    make_deal clock q 3 "ajio" (-100) 4.2 330 ].
Proof.
  symmetry.
  pose proof score_amazon as Ham. pose proof score_myntra as Hmy.
  pose proof score_flipkart as Hfl. pose proof score_ajio as Haj.
  rewrite <- (score_key_make_deal clock q 0 "amazon" 0) in Ham
    by (unfold base_price; lra).
  rewrite <- (score_key_make_deal clock q 2 "myntra" 120) in Hmy
    by (unfold base_price; lra).
  rewrite <- (score_key_make_deal clock q 1 "flipkart" (-50)) in Hfl
    by (unfold base_price; lra).
  rewrite <- (score_key_make_deal clock q 3 "ajio" (-100)) in Haj
    by (unfold base_price; lra).
  apply (sorted_unique (fun x y => Py.Rleb y x) score_key).
  - intros x y Hxy Hyx. apply Rleb_le in Hxy, Hyx. lra.
  - rewrite scrape_stub_perm, built_deals_eq.
    constructor. apply perm_swap.
  - unfold key_le.
    repeat (constructor; [| repeat constructor; apply Rleb_le; lra]).
    constructor.
  - apply (list_sort_descending Py.Rleb score_key).
    + apply Rleb_total.
    + apply Rleb_trans.
  - cbn [map]. repeat constructor; cbn [In]; intuition lra.
Qed.

End SynthesizedOrder.

(** * Further properties of the code *)

(** ** Rounding: order and error *)

Section RoundingOrder.

Lemma round_half_even_range (x : R) :
  (Zfloor x <= Py.round_half_even x <= Zfloor x + 1)%Z.
Proof.
  unfold Py.round_half_even.
  destruct (Rlt_dec _ _); [lia |].
  destruct (Rlt_dec _ _); [lia |].
  destruct (Z.even _); lia.
Qed.

Lemma round_half_even_mono (x y : R) :
  x <= y -> (Py.round_half_even x <= Py.round_half_even y)%Z.
Proof.
  intros Hxy. pose proof (Zfloor_le x y Hxy) as Hf.
  destruct (Z.eq_dec (Zfloor x) (Zfloor y)) as [E | NE].
  - unfold Py.round_half_even. rewrite <- E.
    destruct (Rlt_dec (x - IZR (Zfloor x)) (1 / 2));
      destruct (Rlt_dec (y - IZR (Zfloor x)) (1 / 2)); try lra;
      destruct (Rlt_dec (1 / 2) (x - IZR (Zfloor x)));
      destruct (Rlt_dec (1 / 2) (y - IZR (Zfloor x))); try lra;
      destruct (Z.even (Zfloor x)); lia.
  - pose proof (round_half_even_range x). pose proof (round_half_even_range y).
    lia.
Qed.


Lemma round_mono (x y : R) (k : nat) : x <= y -> Py.round x k <= Py.round y k.
Proof.
  intros Hxy. pose proof (pow10_pos k) as Hk. unfold Py.round.
  apply Rmult_le_compat_r; [left; now apply Rinv_0_lt_compat |].
  apply IZR_le, round_half_even_mono.
  apply Rmult_le_compat_r; lra.
Qed.


End RoundingOrder.

(** ** The normalisation [_norm] *)

(** X1.  [_norm] never leaves [0,1], whatever the value and the range:
    an absent value and an empty range ([hi = lo]) give 0, so no division
    by zero takes place. *)
Theorem norm_bounded_total (v : option R) (lo hi : R) :
  0 <= _norm v lo hi <= 1
  /\ _norm None lo hi = 0
  /\ _norm v lo lo = 0.
Proof.
  split; [apply norm_unit |]. split; [reflexivity |].
  unfold _norm. destruct v; [| reflexivity].
  destruct (Req_dec_T lo lo); [reflexivity | congruence].
Qed.

Lemma norm_proper_range (x lo hi : R) :
  lo < hi -> _norm (Some x) lo hi = Rmax 0 (Rmin 1 ((x - lo) / (hi - lo))).
Proof.
  intros H. unfold _norm. destruct (Req_dec_T hi lo); [lra | reflexivity].
Qed.

Lemma div_range_mono (x y lo hi : R) :
  lo < hi -> x <= y -> (x - lo) / (hi - lo) <= (y - lo) / (hi - lo).
Proof.
  intros H Hxy. apply Rmult_le_compat_r; [| lra].
  left. apply Rinv_0_lt_compat. lra.
Qed.

Lemma norm_mono (x y lo hi : R) :
  lo < hi -> x <= y -> _norm (Some x) lo hi <= _norm (Some y) lo hi.
Proof.
  intros H Hxy. rewrite !norm_proper_range by exact H.
  pose proof (div_range_mono x y lo hi H Hxy).
  unfold Rmax, Rmin. repeat destruct (Rle_dec _ _); lra.
Qed.

Lemma norm_low (x lo hi : R) : lo < hi -> x <= lo -> _norm (Some x) lo hi = 0.
Proof.
  intros H Hx. rewrite norm_proper_range by exact H.
  assert ((x - lo) / (hi - lo) <= 0).
  { replace 0 with ((lo - lo) / (hi - lo)) by (field; lra).
    now apply div_range_mono. }
  unfold Rmax, Rmin. repeat destruct (Rle_dec _ _); lra.
Qed.

Lemma norm_high (x lo hi : R) : lo < hi -> hi <= x -> _norm (Some x) lo hi = 1.
Proof.
  intros H Hx. rewrite norm_proper_range by exact H.
  assert (1 <= (x - lo) / (hi - lo)).
  { replace 1 with ((hi - lo) / (hi - lo)) by (field; lra).
    now apply div_range_mono. }
  unfold Rmax, Rmin. repeat destruct (Rle_dec _ _); lra.
Qed.

(** X2.  On a proper range [lo < hi], [_norm] grows with the value and
    saturates: it is 0 at and below [lo] and 1 at and above [hi]. *)
Theorem norm_monotone_saturating (lo hi : R) :
  lo < hi ->
  (forall x y, x <= y -> _norm (Some x) lo hi <= _norm (Some y) lo hi)
  /\ (forall x, x <= lo -> _norm (Some x) lo hi = 0)
  /\ (forall x, hi <= x -> _norm (Some x) lo hi = 1).
Proof.
  intros H. repeat split; intros.
  - now apply norm_mono.
  - now apply norm_low.
  - now apply norm_high.
Qed.

Lemma norm_monotone_saturating_witness :
  (forall x y, x <= y -> _norm (Some x) 100 50000 <= _norm (Some y) 100 50000)
  /\ (forall x, x <= 100 -> _norm (Some x) 100 50000 = 0)
  /\ (forall x, 50000 <= x -> _norm (Some x) 100 50000 = 1).
Proof. apply (norm_monotone_saturating 100 50000). lra. Defined.

(** ** The scorer: order, saturation, range *)

Section ScoreOrder.

Lemma log10_mono (x y : R) : 0 < x -> x <= y -> Py.log10 x <= Py.log10 y.
Proof.
  intros Hx Hxy. unfold Py.log10. pose proof ln10_pos.
  apply Rmult_le_compat_r; [left; now apply Rinv_0_lt_compat |].
  now apply ln_mono.
Qed.

Lemma reviews_score_mono (n1 n2 : Z) :
  (n1 <= n2)%Z ->
  Rmin 1 (Py.log10 (IZR (Z.max 1 n1)) / 3)
  <= Rmin 1 (Py.log10 (IZR (Z.max 1 n2)) / 3).
Proof.
  intros H. apply Rmin_1_mono.
  assert (Hpos : 0 < IZR (Z.max 1 n1)) by (apply IZR_lt; lia).
  assert (Hle : IZR (Z.max 1 n1) <= IZR (Z.max 1 n2)) by (apply IZR_le; lia).
  pose proof (log10_mono _ _ Hpos Hle). lra.
Qed.

Lemma reviews_score_low (n : Z) :
  (n <= 1)%Z -> Rmin 1 (Py.log10 (IZR (Z.max 1 n)) / 3) = 0.
Proof.
  intros H. rewrite Z.max_l by exact H. rewrite log10_1.
  rewrite Rmin_1_r; lra.
Qed.

Lemma reviews_score_high (n : Z) :
  (1000 <= n)%Z -> Rmin 1 (Py.log10 (IZR (Z.max 1 n)) / 3) = 1.
Proof.
  intros H. rewrite Z.max_r by lia. apply Rmin_1_l.
  assert (Hle : 1000 <= IZR n) by (apply IZR_le; exact H).
  pose proof (log10_mono 1000 (IZR n) ltac:(lra) Hle) as Hl.
  rewrite log10_1000 in Hl. lra.
Qed.

End ScoreOrder.

(** X3.  The score never falls when the price falls, the rating rises or
    the review count rises. *)
Theorem score_deal_monotone (p1 p2 r1 r2 : R) (n1 n2 : Z) :
  p1 <= p2 -> r1 <= r2 -> (n1 <= n2)%Z ->
  score_deal (Some p2) (Some r1) (Some n1)
  <= score_deal (Some p1) (Some r2) (Some n2).
Proof.
  intros Hp Hr Hn. unfold score_deal. apply round_mono.
  pose proof (norm_mono p1 p2 100 50000 ltac:(lra) Hp).
  pose proof (reviews_score_mono n1 n2 Hn).
  lra.
Qed.

Lemma score_deal_monotone_witness :
  score_deal (Some 999) (Some 4.2) (Some 330%Z)
  <= score_deal (Some 899) (Some 4.5) (Some 1250%Z).
Proof. apply score_deal_monotone; [lra | lra | lia]. Defined.

(** X5.  At the poor end a value that is present counts as an absent one:
    a price of 50000 or more and a review count of 1 or less (zero and
    negative counts included) add nothing to the score. *)
Theorem score_deal_saturates_low (p : R) (r : option R) (n : Z) :
  50000 <= p -> (n <= 1)%Z ->
  score_deal (Some p) r (Some n) = score_deal None r None.
Proof.
  intros Hp Hn. unfold score_deal.
  rewrite (norm_high p 100 50000) by lra.
  rewrite (reviews_score_low n) by exact Hn.
  f_equal. lra.
Qed.

Lemma score_deal_saturates_low_witness :
  score_deal (Some 60000) (Some 3) (Some 0%Z) = score_deal None (Some 3) None.
Proof. apply score_deal_saturates_low; [lra | lia]. Defined.

(** X6.  The rating is not clamped: with the best price and review count
    a rating of 6 or more gives a score above 1, and with the poorest price
    and review count a rating of -1 or less gives a score below 0. *)
Theorem score_deal_rating_unclamped (p q r s : R) (n m : Z) :
  p <= 100 -> (1000 <= n)%Z -> 6 <= r ->
  50000 <= q -> (m <= 1)%Z -> s <= -1 ->
  1 < score_deal (Some p) (Some r) (Some n)
  /\ score_deal (Some q) (Some s) (Some m) < 0.
Proof.
  intros Hp Hn Hr Hq Hm Hs. unfold score_deal.
  rewrite (norm_low p 100 50000), (norm_high q 100 50000) by lra.
  rewrite (reviews_score_high n), (reviews_score_low m) by lia.
  split.
  - pose proof (round_lower 10700 4 (0.5 * (1 - 0) + 0.35 * (r / 5) + 0.15 * 1)) as H.
    replace (IZR 10700 / 10 ^ 4) with 1.07 in H by lra.
    assert (1.07 <= Py.round (0.5 * (1 - 0) + 0.35 * (r / 5) + 0.15 * 1) 4)
      by (apply H; lra).
    lra.
  - pose proof (round_upper (-700) 4 (0.5 * (1 - 1) + 0.35 * (s / 5) + 0.15 * 0)) as H.
    replace (IZR (-700) / 10 ^ 4) with (-0.07) in H by lra.
    assert (Py.round (0.5 * (1 - 1) + 0.35 * (s / 5) + 0.15 * 0) 4 <= -0.07)
      by (apply H; lra).
    lra.
Qed.

Lemma score_deal_rating_unclamped_witness :
  1 < score_deal (Some 100) (Some 10) (Some 1000%Z)
  /\ score_deal (Some 50000) (Some (-5)) (Some 0%Z) < 0.
Proof.
  apply score_deal_rating_unclamped; try lra; lia.
Defined.


(** ** More on [list.sort]: sorted input, filters *)

Section SortMore.

Context {A K : Type}.
Variable leb : K -> K -> bool.
Variable key : A -> K.

Hypothesis leb_total : forall x y, leb x y = true \/ leb y x = true.
Hypothesis leb_trans :
  forall x y z, leb x y = true -> leb y z = true -> leb x z = true.

Local Abbreviation le := (key_le leb key).

Lemma insert_below (x : A) (l : list A) :
  Forall (le x) l -> insert leb key x l = x :: l.
Proof.
  intros H. destruct l as [| y l]; [reflexivity |]. simpl.
  inversion H as [| ? ? Hxy _]; subst. unfold key_le in Hxy. now rewrite Hxy.
Qed.

Lemma stable_sort_sorted_id (l : list A) :
  StronglySorted le l -> stable_sort leb key l = l.
Proof.
  induction 1 as [| x l Hs IH Hx]; [reflexivity |].
  simpl. rewrite IH. now apply insert_below.
Qed.

Lemma list_sort_idem (reverse : bool) (l : list A) :
  list_sort leb key reverse (list_sort leb key reverse l)
  = list_sort leb key reverse l.
Proof.
  unfold list_sort. destruct reverse.
  - rewrite rev_involutive. f_equal.
    apply stable_sort_sorted_id. now apply stable_sort_sorted.
  - apply stable_sort_sorted_id. now apply stable_sort_sorted.
Qed.

Lemma filter_insert_sorted (f : A -> bool) (x : A) (l : list A) :
  StronglySorted le l ->
  filter f (insert leb key x l)
  = if f x then insert leb key x (filter f l) else filter f l.
Proof.
  induction 1 as [| y l Hs IH Hy]; simpl.
  - destruct (f x); reflexivity.
  - destruct (leb (key x) (key y)) eqn:E.
    + simpl. destruct (f x) eqn:Fx; [| reflexivity].
      destruct (f y) eqn:Fy; simpl; [now rewrite E |].
      symmetry. apply insert_below.
      rewrite Forall_forall in *. intros z Hz.
      apply filter_In in Hz as [Hz _].
      unfold key_le in *. eauto.
    + simpl. rewrite IH.
      destruct (f y) eqn:Fy, (f x) eqn:Fx; simpl; rewrite ?E; reflexivity.
Qed.

Lemma filter_stable_sort (f : A -> bool) (l : list A) :
  filter f (stable_sort leb key l) = stable_sort leb key (filter f l).
Proof.
  induction l as [| x l IH]; [reflexivity |]. simpl.
  rewrite filter_insert_sorted by now apply stable_sort_sorted.
  rewrite IH. destruct (f x); reflexivity.
Qed.

Lemma filter_list_sort (f : A -> bool) (reverse : bool) (l : list A) :
  filter f (list_sort leb key reverse l)
  = list_sort leb key reverse (filter f l).
Proof.
  unfold list_sort. destruct reverse; [| apply filter_stable_sort].
  now rewrite filter_rev, filter_stable_sort, filter_rev.
Qed.

End SortMore.

Section IntegerOrder.

Lemma Zleb_total (x y : Z) : Z.leb x y = true \/ Z.leb y x = true.
Proof. rewrite !Z.leb_le. lia. Qed.

Lemma Zleb_trans (x y z : Z) :
  Z.leb x y = true -> Z.leb y z = true -> Z.leb x z = true.
Proof. rewrite !Z.leb_le. lia. Qed.

Lemma Zleb_antisym (x y : Z) : Z.leb x y = true -> Z.leb y x = true -> x = y.
Proof. rewrite !Z.leb_le. lia. Qed.

Lemma tied_Zeqb {A : Type} (key : A -> Z) (k : Z) (a : A) :
  tied Z.leb key k a = Z.eqb (key a) k.
Proof.
  unfold tied.
  destruct (Z.leb_spec k (key a)), (Z.leb_spec (key a) k), (Z.eqb_spec (key a) k);
    simpl; auto; lia.
Qed.

Lemma sort_asc_R {A : Type} (key : A -> R) (l : list A) :
  StronglySorted (fun a b => key a <= key b) (list_sort Py.Rleb key false l).
Proof.
  eapply sorted_weaken; [| apply list_sort_ascending].
  - intros a b H. now apply Rleb_le.
  - apply Rleb_total.
  - apply Rleb_trans.
Qed.

Lemma sort_desc_Z {A : Type} (key : A -> Z) (l : list A) :
  StronglySorted (fun a b => (key b <= key a)%Z) (list_sort Z.leb key true l).
Proof.
  eapply sorted_weaken; [| apply list_sort_descending].
  - intros a b H. now apply Z.leb_le.
  - apply Zleb_total.
  - apply Zleb_trans.
Qed.

Lemma sort_stable_Z {A : Type} (key : A -> Z) (reverse : bool) (k : Z) (l : list A) :
  filter (fun a => Z.eqb (key a) k) (list_sort Z.leb key reverse l)
  = filter (fun a => Z.eqb (key a) k) l.
Proof.
  rewrite <- !(filter_ext _ _ (tied_Zeqb key k)).
  apply list_sort_stable. apply Zleb_trans.
Qed.

End IntegerOrder.

(** The five branches of [sort_deals], by the tests of the source. *)
Lemma sort_deals_cases (directive : option string) (ds : list Deal) :
  sort_deals directive ds = list_sort Py.Rleb price false ds
  \/ sort_deals directive ds = list_sort Py.Rleb price true ds
  \/ sort_deals directive ds
     = list_sort Py.Rleb (fun d => Py.or_zero (rating d)) true ds
  \/ sort_deals directive ds
     = list_sort Z.leb (fun d => Py.or_zeroZ (reviews_count d)) true ds
  \/ sort_deals directive ds = list_sort Py.Rleb score_key true ds.
Proof.
  unfold sort_deals.
  repeat (destruct (Str.opt_eqb directive _); [tauto |]). tauto.
Qed.

Lemma sort_deals_perm (directive : option string) (ds : list Deal) :
  Permutation (sort_deals directive ds) ds.
Proof.
  destruct (sort_deals_cases directive ds) as [E | [E | [E | [E | E]]]];
    rewrite E; apply list_sort_perm.
Qed.

(** X8.  Whatever the directive (absent and unknown ones included),
    sorting returns the same deals: a permutation of the list, of the same
    length. *)
Theorem sort_deals_permutation (directive : option string) (ds : list Deal) :
  Permutation (sort_deals directive ds) ds
  /\ List.length (sort_deals directive ds) = List.length ds.
Proof.
  pose proof (sort_deals_perm directive ds) as H.
  split; [exact H | now apply Permutation_length].
Qed.

(** X9.  The four named directives order the deals as they say:
    [price_low] by ascending price, [price_high] by descending price,
    [rating] by descending rating and [reviews] by descending review
    count, an absent rating or count standing for 0. *)
Theorem sort_deals_ordered (ds : list Deal) :
  StronglySorted (fun a b => price a <= price b)
    (sort_deals (Some "price_low"%string) ds)
  /\ StronglySorted (fun a b => price b <= price a)
       (sort_deals (Some "price_high"%string) ds)
  /\ StronglySorted (fun a b => Py.or_zero (rating b) <= Py.or_zero (rating a))
       (sort_deals (Some "rating"%string) ds)
  /\ StronglySorted
       (fun a b => (Py.or_zeroZ (reviews_count b) <= Py.or_zeroZ (reviews_count a))%Z)
       (sort_deals (Some "reviews"%string) ds).
Proof.
  repeat split.
  - apply (sort_asc_R price).
  - apply (sort_desc_R price).
  - apply (sort_desc_R (fun d => Py.or_zero (rating d))).
  - apply (sort_desc_Z (fun d => Py.or_zeroZ (reviews_count d))).
Qed.

(** X10.  Every branch of the sort is stable: the deals that share a key
    value stand in the sorted list in the order they had before, in the
    descending branches as well. *)
Theorem sort_deals_stable (ds : list Deal) :
  (forall k, filter (fun d => Py.Reqb (price d) k)
               (sort_deals (Some "price_low"%string) ds)
             = filter (fun d => Py.Reqb (price d) k) ds)
  /\ (forall k, filter (fun d => Py.Reqb (price d) k)
                  (sort_deals (Some "price_high"%string) ds)
                = filter (fun d => Py.Reqb (price d) k) ds)
  /\ (forall k, filter (fun d => Py.Reqb (Py.or_zero (rating d)) k)
                  (sort_deals (Some "rating"%string) ds)
                = filter (fun d => Py.Reqb (Py.or_zero (rating d)) k) ds)
  /\ (forall k, filter (fun d => Z.eqb (Py.or_zeroZ (reviews_count d)) k)
                  (sort_deals (Some "reviews"%string) ds)
                = filter (fun d => Z.eqb (Py.or_zeroZ (reviews_count d)) k) ds)
  /\ (forall k, filter (fun d => Py.Reqb (score_key d) k)
                  (sort_deals (Some "best"%string) ds)
                = filter (fun d => Py.Reqb (score_key d) k) ds).
Proof.
  repeat split; intros k.
  - apply (sort_stable_R price).
  - apply (sort_stable_R price).
  - apply (sort_stable_R (fun d => Py.or_zero (rating d))).
  - apply (sort_stable_Z (fun d => Py.or_zeroZ (reviews_count d))).
  - apply (sort_stable_R score_key).
Qed.

(** X11.  Sorting is idempotent: sorting a sorted list again with the
    same directive changes nothing. *)
Theorem sort_deals_idempotent (directive : option string) (ds : list Deal) :
  sort_deals directive (sort_deals directive ds) = sort_deals directive ds.
Proof.
  unfold sort_deals.
  repeat (destruct (Str.opt_eqb directive _);
          [apply list_sort_idem;
           first [apply Rleb_total | apply Rleb_trans
                 | apply Zleb_total | apply Zleb_trans] |]).
  apply list_sort_idem; [apply Rleb_total | apply Rleb_trans].
Qed.

(** X12.  Filtering and sorting commute: the handler filters by price and
    then sorts, and sorting first and filtering afterwards gives the same
    list. *)
Theorem sort_filter_commute (directive : option string) (lo hi : option R)
    (ds : list Deal) :
  sort_deals directive (filter_price lo hi ds)
  = filter_price lo hi (sort_deals directive ds).
Proof.
  assert (H : forall (f : Deal -> bool) l,
             sort_deals directive (filter f l) = filter f (sort_deals directive l)).
  { intros f l. unfold sort_deals.
    repeat (destruct (Str.opt_eqb directive _);
            [symmetry; apply filter_list_sort;
             first [apply Rleb_total | apply Rleb_trans
                   | apply Zleb_total | apply Zleb_trans] |]).
    symmetry. apply filter_list_sort; [apply Rleb_total | apply Rleb_trans]. }
  unfold filter_price, filter_max_price, filter_min_price.
  destruct lo, hi; rewrite ?H; reflexivity.
Qed.

(** ** The price filter *)

Lemma filter_price_In (lo hi : option R) (ds : list Deal) (d : Deal) :
  In d (filter_price lo hi ds)
  <-> In d ds
      /\ when_present (fun m => m <= price d) lo
      /\ when_present (fun m => price d <= m) hi.
Proof.
  unfold filter_price, filter_max_price, filter_min_price.
  destruct lo as [m |], hi as [n |]; simpl;
    rewrite ?filter_In; unfold Py.Rgeb; rewrite ?Rleb_le; tauto.
Qed.

(** X13.  The filter keeps exactly the deals whose price lies within the
    bounds that are given; an absent bound excludes nothing. *)
Theorem filter_price_membership (lo hi : option R) (ds : list Deal) (d : Deal) :
  In d (filter_price lo hi ds)
  <-> In d ds
      /\ when_present (fun m => m <= price d) lo
      /\ when_present (fun m => price d <= m) hi.
Proof. apply filter_price_In. Qed.

Lemma no_member_nil {A : Type} (l : list A) : (forall x, ~ In x l) -> l = [].
Proof.
  destruct l as [| a l]; [reflexivity |].
  intros H. exfalso. apply (H a). now left.
Qed.

(** X14.  A lower bound above the upper bound leaves no deal: the result
    is the empty list, not an error. *)
Theorem filter_price_crossed_bounds (lo hi : R) (ds : list Deal) :
  hi < lo -> filter_price (Some lo) (Some hi) ds = [].
Proof.
  intros H. apply no_member_nil. intros d Hd.
  unfold filter_price, filter_max_price, filter_min_price in Hd.
  rewrite !filter_In in Hd. unfold Py.Rgeb in Hd. rewrite !Rleb_le in Hd. lra.
Qed.

Lemma filter_price_crossed_bounds_witness :
  filter_price (Some 500) (Some 100) [sample_deal 20; sample_deal 300] = [].
Proof. apply filter_price_crossed_bounds. lra. Defined.

(** ** The pitch on any list *)

Section PitchMore.

Local Open Scope string_scope.

Lemma contains_here (n s : string) : Str.contains n (n ++ s).
Proof. exists "", s. reflexivity. Qed.

Lemma contains_after (n p s : string) : Str.contains n s -> Str.contains n (p ++ s).
Proof.
  intros [b [a ->]]. exists (p ++ b), a. now rewrite append_assoc.
Qed.

End PitchMore.

(** X15.  The pitch names the query, whatever the deals are. *)
Theorem craft_pitch_mentions_query (float_str : R -> string) (q : string)
    (ds : list Deal) :
  Str.contains q (craft_pitch float_str q ds).
Proof.
  destruct ds as [| best rest]; cbn [craft_pitch];
    apply contains_after, contains_here.
Qed.

(** X16.  The pitch reads the first three deals only: the first as the
    best pick, the second and third as the alternatives, joined by a comma.
    Deals after the third do not change the text. *)
Theorem craft_pitch_first_three (float_str : R -> string) (q : string)
    (d0 d1 d2 : Deal) (rest : list Deal) :
  craft_pitch float_str q (d0 :: d1 :: d2 :: rest)
  = craft_pitch float_str q [d0; d1; d2]
  /\ alt_text (d0 :: d1 :: d2 :: rest)
     = (Str.capitalize (platform d1) ++ " at ₹" ++ Str.of_Z (Py.int (price d1))
        ++ ", "
        ++ Str.capitalize (platform d2) ++ " at ₹" ++ Str.of_Z (Py.int (price d2)))%string.
Proof.
  split; [reflexivity |].
  unfold alt_text. cbn [slice Nat.sub skipn firstn List.map Str.join].
  now rewrite !append_assoc.
Qed.

(** X17.  The schema lets a deal go without discount, rating and review
    count; the pitch then prints [None] in their places. *)
Theorem craft_pitch_prints_None (float_str : R -> string) (q : string)
    (d : Deal) (rest : list Deal) :
  discount_percent d = None -> rating d = None -> reviews_count d = None ->
  Str.contains "with None% off and a solid None★ from None+ reviews. "
    (craft_pitch float_str q (d :: rest)).
Proof.
  intros H1 H2 H3. cbn [craft_pitch]. rewrite H1, H2, H3. cbn [fmt_float fmt_int].
  do 7 apply contains_after.
  exists ""%string. eexists. reflexivity.
Qed.

Lemma craft_pitch_prints_None_witness :
  Str.contains "with None% off and a solid None★ from None+ reviews. "
    (craft_pitch (fun _ => "0.0"%string) "laptop" [sample_deal 20]).
Proof.
  apply (craft_pitch_prints_None (fun _ => "0.0"%string) "laptop" (sample_deal 20) []);
    reflexivity.
Defined.

(** ** The synthesized deals, field by field *)

Section SynthesizedDeals.

Local Open Scope string_scope.

Variable clock : nat -> datetime.
Variable q : string.

Local Abbreviation amazon := (make_deal clock q 0 "amazon" 0 4.5 1250).
Local Abbreviation myntra := (make_deal clock q 2 "myntra" 120 4.6 540).
Local Abbreviation flipkart := (make_deal clock q 1 "flipkart" (-50) 4.3 980).
Local Abbreviation ajio := (make_deal clock q 3 "ajio" (-100) 4.2 330).

Lemma synthesized_prices :
  price amazon = 999 /\ price myntra = 1119
  /\ price flipkart = 949 /\ price ajio = 899.
Proof.
  repeat split.
  - destruct (make_deal_fields clock q 0 "amazon" 0 4.5 1250 99900 124875)
      as [H _]; unfold base_price in *; lra.
  - destruct (make_deal_fields clock q 2 "myntra" 120 4.6 540 111900 139875)
      as [H _]; unfold base_price in *; lra.
  - destruct (make_deal_fields clock q 1 "flipkart" (-50) 4.3 980 94900 118625)
      as [H _]; unfold base_price in *; lra.
  - destruct (make_deal_fields clock q 3 "ajio" (-100) 4.2 330 89900 112375)
      as [H _]; unfold base_price in *; lra.
Qed.

Lemma synthesized_ratings :
  Py.or_zero (rating amazon) = 4.5 /\ Py.or_zero (rating myntra) = 4.6
  /\ Py.or_zero (rating flipkart) = 4.3 /\ Py.or_zero (rating ajio) = 4.2.
Proof. cbn [make_deal rating]. repeat split; apply or_zero_Some. Qed.

Lemma synthesized_scores :
  (0.9559 <= score_key amazon <= 0.9560)
  /\ (0.9467 <= score_key myntra <= 0.9518)
  /\ (0.9374 <= score_key flipkart <= 0.9425)
  /\ (0 <= score_key ajio <= 0.9360).
Proof.
  rewrite (score_key_make_deal clock q 0 "amazon" 0 4.5 1250 999)
    by (unfold base_price; lra).
  rewrite (score_key_make_deal clock q 2 "myntra" 120 4.6 540 1119)
    by (unfold base_price; lra).
  rewrite (score_key_make_deal clock q 1 "flipkart" (-50) 4.3 980 949)
    by (unfold base_price; lra).
  rewrite (score_key_make_deal clock q 3 "ajio" (-100) 4.2 330 899)
    by (unfold base_price; lra).
  pose proof score_amazon. pose proof score_myntra.
  pose proof score_flipkart. pose proof score_ajio. tauto.
Qed.

Lemma make_deal_quality (i : nat) (pf : string) (delta r : R) (n : Z) :
  quality_score (make_deal clock q i pf delta r n)
  = Some (score_key (make_deal clock q i pf delta r n)).
Proof. unfold score_key. cbn [make_deal quality_score]. now rewrite or_zero_Some. Qed.

Lemma scrape_stub_In (d : Deal) :
  In d (scrape_stub clock q)
  <-> d = amazon \/ d = myntra \/ d = flipkart \/ d = ajio.
Proof. rewrite scrape_stub_order. cbn [In]. intuition congruence. Qed.

Lemma scrape_stub_price_range (d : Deal) :
  In d (scrape_stub clock q) -> 899 <= price d <= 1119.
Proof.
  pose proof synthesized_prices as [Ha [Hm [Hf Hj]]].
  rewrite scrape_stub_In. intros [-> | [-> | [-> | ->]]]; lra.
Qed.

End SynthesizedDeals.

(** X19.  Only the title, the product URL and the time stamp of a deal
    depend on the query and the clock: platform, prices, discount, rating,
    review count, quality score, images and delivery text are the same for
    all queries. *)
Theorem scrape_stub_numbers_fixed (clock clock' : nat -> datetime) (q q' : string) :
  map (fun d => (platform d, price d, original_price d, discount_percent d,
                 rating d, reviews_count d, quality_score d,
                 image_urls d, delivery d))
      (scrape_stub clock q)
  = map (fun d => (platform d, price d, original_price d, discount_percent d,
                   rating d, reviews_count d, quality_score d,
                   image_urls d, delivery d))
        (scrape_stub clock' q').
Proof. rewrite !scrape_stub_order. reflexivity. Qed.

(** X20.  The synthesized deals keep the invariants of the schema's
    data: a positive price, an original price not below it, a discount
    within 0..100, a rating within 0..5, a review count that is not
    negative, a quality score within 0..1, and four images. *)
Theorem scrape_stub_invariants (clock : nat -> datetime) (q : string) :
  Forall (fun d =>
            0 < price d
            /\ (exists o, original_price d = Some o /\ price d <= o)
            /\ (exists c, discount_percent d = Some c /\ 0 <= c <= 100)
            /\ (exists r, rating d = Some r /\ 0 <= r <= 5)
            /\ (exists n, reviews_count d = Some n /\ (0 <= n)%Z)
            /\ (exists s, quality_score d = Some s /\ 0 <= s <= 1)
            /\ List.length (image_urls d) = 4%nat)
         (scrape_stub clock q).
Proof.
  rewrite Forall_forall. intros d Hd.
  pose proof (scrape_stub_price_range clock q d Hd) as Hp.
  assert (Hb : In d (built_deals clock q)).
  { eapply Permutation_in; [apply scrape_stub_perm | exact Hd]. }
  pose proof (built_deals_original clock q d Hb) as Ho.
  pose proof (synthesized_scores clock q) as [Ha [Hm [Hf Hj]]].
  split; [lra |].
  split; [exists (1.25 * price d); split; [exact Ho | lra] |].
  apply scrape_stub_In in Hd.
  destruct Hd as [-> | [-> | [-> | ->]]];
    (split; [exists 20; split; [apply make_deal_discount | lra] |]);
    (split; [eexists; split; [reflexivity | lra] |]);
    (split; [eexists; split; [reflexivity | lia] |]);
    (split; [eexists; split; [apply make_deal_quality | lra] | reflexivity]).
Qed.

(** ** The search handler *)

Section SortUnique.

Context {A K : Type}.
Variable leb : K -> K -> bool.
Variable key : A -> K.

Hypothesis leb_total : forall x y, leb x y = true \/ leb y x = true.
Hypothesis leb_trans :
  forall x y z, leb x y = true -> leb y z = true -> leb x z = true.
Hypothesis leb_antisym :
  forall x y, leb x y = true -> leb y x = true -> x = y.

Lemma list_sort_asc_unique (target l : list A) :
  Permutation target l ->
  StronglySorted (key_le leb key) target ->
  NoDup (map key target) ->
  list_sort leb key false l = target.
Proof.
  intros Hp Hs Hnd. symmetry. apply (sorted_unique leb key); auto.
  - rewrite Hp. symmetry. apply list_sort_perm.
  - now apply list_sort_ascending.
Qed.

Lemma list_sort_desc_unique (target l : list A) :
  Permutation target l ->
  StronglySorted (key_ge leb key) target ->
  NoDup (map key target) ->
  list_sort leb key true l = target.
Proof.
  intros Hp Hs Hnd. symmetry.
  apply (sorted_unique (fun x y => leb y x) key); auto.
  - rewrite Hp. symmetry. apply list_sort_perm.
  - now apply (list_sort_descending leb key).
Qed.

End SortUnique.

Section HandlerFacts.

Local Open Scope string_scope.

Variable float_str : R -> string.
Variable clock : nat -> datetime.
Variable q : string.

Local Abbreviation amazon := (make_deal clock q 0 "amazon" 0 4.5 1250).
Local Abbreviation myntra := (make_deal clock q 2 "myntra" 120 4.6 540).
Local Abbreviation flipkart := (make_deal clock q 1 "flipkart" (-50) 4.3 980).
Local Abbreviation ajio := (make_deal clock q 3 "ajio" (-100) 4.2 330).

Lemma int_IZR (n : Z) : Py.int (IZR n) = n.
Proof.
  unfold Py.int. destruct (Rle_dec 0 (IZR n)); [apply ZfloorZ |].
  unfold Zceil. rewrite ZfloorNZ. lia.
Qed.

Lemma NoDup_map_filter {B : Type} (f : Deal -> B) (g : Deal -> bool) (l : list Deal) :
  NoDup (map f l) -> NoDup (map f (filter g l)).
Proof.
  induction l as [| x l IH]; simpl; [auto |].
  intros H. inversion H as [| ? ? Hnotin Hnd]; subst.
  destruct (g x); simpl; [| auto].
  constructor; [| auto].
  intros Hin. apply Hnotin.
  apply in_map_iff in Hin as [y [Hy Hin]]. apply filter_In in Hin as [Hin _].
  rewrite <- Hy. now apply in_map.
Qed.

Lemma filter_length_bound (g : Deal -> bool) (l : list Deal) :
  (List.length (filter g l) <= List.length l)%nat.
Proof.
  induction l as [| x l IH]; simpl; [lia |]. destruct (g x); simpl; lia.
Qed.

Lemma filter_price_facts (lo hi : option R) (l : list Deal) :
  (List.length (filter_price lo hi l) <= List.length l)%nat
  /\ (NoDup (map platform l) -> NoDup (map platform (filter_price lo hi l))).
Proof.
  unfold filter_price, filter_max_price, filter_min_price.
  destruct lo as [m |], hi as [n |]; split; auto; intros.
  - etransitivity; apply filter_length_bound.
  - now do 2 apply NoDup_map_filter.
  - apply filter_length_bound.
  - now apply NoDup_map_filter.
  - apply filter_length_bound.
  - now apply NoDup_map_filter.
Qed.

End HandlerFacts.

(** X4.  At the good end the score saturates, in each argument on its
    own: a price of at most 100 scores as 100 does whatever the rating and
    the reviews, and a review count of at least 1000 scores as 1000 does
    whatever the price and the rating. *)
Theorem score_deal_saturates_high :
  (forall (p : R) (r : option R) (n : option Z),
      p <= 100 -> score_deal (Some p) r n = score_deal (Some 100) r n)
  /\ (forall (p r : option R) (n : Z),
        (1000 <= n)%Z -> score_deal p r (Some n) = score_deal p r (Some 1000%Z)).
Proof.
  split.
  - intros p r n Hp. unfold score_deal.
    now rewrite (norm_low p 100 50000), (norm_low 100 100 50000) by lra.
  - intros p r n Hn. unfold score_deal.
    now rewrite (reviews_score_high n), (reviews_score_high 1000) by lia.
Qed.

Lemma score_deal_saturates_high_witness :
  score_deal (Some 99) (Some 4.5) None = score_deal (Some 100) (Some 4.5) None
  /\ score_deal (Some 999) None (Some 1250%Z)
     = score_deal (Some 999) None (Some 1000%Z).
Proof.
  split.
  - apply (proj1 score_deal_saturates_high). lra.
  - apply (proj2 score_deal_saturates_high). lia.
Defined.

(** ** The scorer's formula: exact arithmetic and binary64 *)

Section ExactRounding.










End ExactRounding.

Example tie_price_is_exact :
  Prim2SF 49625.75%float = S754_finite false (198503 * 2 ^ 35) (-37).
Proof. vm_compute. reflexivity. Qed.



(** ** Four deals with the numbers of the synthesizer

    The orders and the pitches below depend on the platforms, prices,
    discounts, ratings, review counts and scores of the four deals only,
    not on their URLs. *)

Section FourDeals.

Local Open Scope string_scope.

Variable float_str : R -> string.
Variables a m f j : Deal.

Hypothesis Hplatform :
  map platform [a; m; f; j] = ["amazon"; "myntra"; "flipkart"; "ajio"].
Hypothesis Hprice : map price [a; m; f; j] = [999; 1119; 949; 899].
Hypothesis Hdiscount :
  map discount_percent [a; m; f; j] = [Some 20; Some 20; Some 20; Some 20].
Hypothesis Hrating :
  map rating [a; m; f; j] = [Some 4.5; Some 4.6; Some 4.3; Some 4.2].
Hypothesis Hreviews :
  map reviews_count [a; m; f; j]
  = [Some 1250%Z; Some 540%Z; Some 980%Z; Some 330%Z].
Hypothesis Hscore :
  (0.9559 <= score_key a <= 0.9560)
  /\ (0.9467 <= score_key m <= 0.9518)
  /\ (0.9374 <= score_key f <= 0.9425)
  /\ (0 <= score_key j <= 0.9360).

Lemma four_prices :
  price a = 999 /\ price m = 1119 /\ price f = 949 /\ price j = 899.
Proof using Hprice.
  clear Hplatform Hdiscount Hrating Hreviews Hscore. cbn [map] in Hprice. injection Hprice. auto. Qed.

Lemma four_discounts :
  discount_percent a = Some 20 /\ discount_percent m = Some 20
  /\ discount_percent f = Some 20 /\ discount_percent j = Some 20.
Proof using Hdiscount.
  clear Hplatform Hprice Hrating Hreviews Hscore. cbn [map] in Hdiscount. injection Hdiscount. auto. Qed.

Lemma four_ratings :
  Py.or_zero (rating a) = 4.5 /\ Py.or_zero (rating m) = 4.6
  /\ Py.or_zero (rating f) = 4.3 /\ Py.or_zero (rating j) = 4.2.
Proof using Hrating.
  clear Hplatform Hprice Hdiscount Hreviews Hscore.
  cbn [map] in Hrating. injection Hrating as -> -> -> ->.
  repeat split; apply or_zero_Some.
Qed.

Lemma four_reviews :
  Py.or_zeroZ (reviews_count a) = 1250%Z /\ Py.or_zeroZ (reviews_count m) = 540%Z
  /\ Py.or_zeroZ (reviews_count f) = 980%Z /\ Py.or_zeroZ (reviews_count j) = 330%Z.
Proof using Hreviews.
  clear Hplatform Hprice Hdiscount Hrating Hscore.
  cbn [map] in Hreviews. injection Hreviews as -> -> -> ->.
  repeat split; reflexivity.
Qed.

Lemma four_best : list_sort Py.Rleb score_key true [a; f; m; j] = [a; m; f; j].
Proof using Hscore.
  clear Hplatform Hprice Hdiscount Hrating Hreviews.
  destruct Hscore as [Sa [Sm [Sf Sj]]].
  apply list_sort_desc_unique.
  - apply Rleb_total.
  - apply Rleb_trans.
  - apply Rleb_antisym.
  - perm_list.
  - unfold key_ge, key_le.
    repeat (constructor; [| repeat constructor; apply Rleb_le; lra]).
    constructor.
  - cbn [map]. repeat constructor; cbn [In]; intuition lra.
Qed.

Lemma four_best_again (directive : option string) :
  directive = None \/ directive = Some "best" ->
  sort_deals directive [a; m; f; j] = [a; m; f; j].
Proof using Hscore.
  clear Hplatform Hprice Hdiscount Hrating Hreviews.
  destruct Hscore as [Sa [Sm [Sf Sj]]].
  intros [-> | ->]; unfold sort_deals; cbn [Str.opt_eqb]; simpl String.eqb;
    cbv iota; apply list_sort_desc_unique;
    try apply Rleb_total; try apply Rleb_trans; try apply Rleb_antisym;
    try apply Permutation_refl;
    try (unfold key_ge, key_le;
         repeat (constructor; [| repeat constructor; apply Rleb_le; lra]);
         constructor);
    cbn [map]; repeat constructor; cbn [In]; intuition lra.
Qed.

Lemma four_price_low :
  sort_deals (Some "price_low") [a; m; f; j] = [j; f; a; m].
Proof using Hprice.
  clear Hplatform Hdiscount Hrating Hreviews Hscore.
  destruct four_prices as [Pa [Pm [Pf Pj]]].
  unfold sort_deals. simpl Str.opt_eqb. cbv iota.
  apply list_sort_asc_unique.
  - apply Rleb_total.
  - apply Rleb_trans.
  - apply Rleb_antisym.
  - perm_list.
  - unfold key_le.
    repeat (constructor; [| repeat constructor; apply Rleb_le; lra]).
    constructor.
  - cbn [map]. repeat constructor; cbn [In]; intuition lra.
Qed.

Lemma four_price_high :
  sort_deals (Some "price_high") [a; m; f; j] = [m; a; f; j].
Proof using Hprice.
  clear Hplatform Hdiscount Hrating Hreviews Hscore.
  destruct four_prices as [Pa [Pm [Pf Pj]]].
  unfold sort_deals. simpl Str.opt_eqb. cbv iota.
  apply list_sort_desc_unique.
  - apply Rleb_total.
  - apply Rleb_trans.
  - apply Rleb_antisym.
  - perm_list.
  - unfold key_ge, key_le.
    repeat (constructor; [| repeat constructor; apply Rleb_le; lra]).
    constructor.
  - cbn [map]. repeat constructor; cbn [In]; intuition lra.
Qed.

Lemma four_rating :
  sort_deals (Some "rating") [a; m; f; j] = [m; a; f; j].
Proof using Hrating.
  clear Hplatform Hprice Hdiscount Hreviews Hscore.
  destruct four_ratings as [Ra [Rm [Rf Rj]]].
  unfold sort_deals. simpl Str.opt_eqb. cbv iota.
  apply list_sort_desc_unique.
  - apply Rleb_total.
  - apply Rleb_trans.
  - apply Rleb_antisym.
  - perm_list.
  - unfold key_ge, key_le.
    repeat (constructor; [| repeat constructor; apply Rleb_le; lra]).
    constructor.
  - cbn [map]. repeat constructor; cbn [In]; intuition lra.
Qed.

Lemma four_reviews_order :
  sort_deals (Some "reviews") [a; m; f; j] = [a; f; m; j].
Proof using Hreviews.
  clear Hplatform Hprice Hdiscount Hrating Hscore.
  destruct four_reviews as [Ra [Rm [Rf Rj]]].
  unfold sort_deals. simpl Str.opt_eqb. cbv iota.
  apply list_sort_desc_unique.
  - apply Zleb_total.
  - apply Zleb_trans.
  - apply Zleb_antisym.
  - perm_list.
  - unfold key_ge, key_le. rewrite ?Ra, ?Rm, ?Rf, ?Rj.
    repeat (constructor; [| repeat constructor; rewrite ?Ra, ?Rm, ?Rf, ?Rj; reflexivity]).
    constructor.
  - cbn [map]. rewrite Ra, Rm, Rf, Rj.
    repeat constructor; cbn [In]; intuition discriminate.
Qed.

Lemma four_price_range (d : Deal) :
  In d [a; m; f; j] -> 899 <= price d <= 1119.
Proof using Hprice.
  clear Hplatform Hdiscount Hrating Hreviews Hscore.
  destruct four_prices as [Pa [Pm [Pf Pj]]].
  cbn [In]. intros [<- | [<- | [<- | [<- | []]]]]; lra.
Qed.

Lemma four_platforms_nodup : NoDup (map platform [a; m; f; j]).
Proof using Hplatform.
  clear Hprice Hdiscount Hrating Hreviews Hscore.
  rewrite Hplatform. repeat constructor; cbn [In]; intuition discriminate.
Qed.

Lemma four_pitch (q : string) :
  craft_pitch float_str q [a; m; f; j]
  = "If you're looking for " ++ q
    ++ ", my best pick is on Amazon at ₹999 with " ++ float_str 20
    ++ "% off and a solid " ++ float_str 4.5
    ++ "★ from 1250+ reviews. I can also get you options from Myntra at ₹1119, Flipkart at ₹949. Want me to open the best offer for you?".
Proof using Hplatform Hprice Hdiscount Hrating Hreviews.
  clear Hscore.
  destruct four_prices as [Pa [Pm [Pf Pj]]].
  cbn [map] in Hplatform, Hdiscount, Hrating, Hreviews.
  injection Hplatform as Ka Km Kf Kj. injection Hdiscount as Da Dm Df Dj.
  injection Hrating as Ra Rm Rf Rj. injection Hreviews as Va Vm Vf Vj.
  cbn [craft_pitch alt_text slice Nat.sub skipn firstn List.map Str.join].
  rewrite Ka, Km, Kf, Pa, Pm, Pf, Da, Ra, Va, !int_IZR.
  reflexivity.
Qed.

Lemma four_pitch_price_low (q : string) :
  craft_pitch float_str q [j; f; a; m]
  = "If you're looking for " ++ q
    ++ ", my best pick is on Ajio at ₹899 with " ++ float_str 20
    ++ "% off and a solid " ++ float_str 4.2
    ++ "★ from 330+ reviews. I can also get you options from Flipkart at ₹949, Amazon at ₹999. Want me to open the best offer for you?".
Proof using Hplatform Hprice Hdiscount Hrating Hreviews.
  clear Hscore.
  destruct four_prices as [Pa [Pm [Pf Pj]]].
  cbn [map] in Hplatform, Hdiscount, Hrating, Hreviews.
  injection Hplatform as Ka Km Kf Kj. injection Hdiscount as Da Dm Df Dj.
  injection Hrating as Ra Rm Rf Rj. injection Hreviews as Va Vm Vf Vj.
  cbn [craft_pitch alt_text slice Nat.sub skipn firstn List.map Str.join].
  rewrite Kj, Kf, Ka, Pj, Pf, Pa, Dj, Rj, Vj, !int_IZR.
  reflexivity.
Qed.

End FourDeals.

(** ** The synthesizer and the handler with validation *)

Section ValidatedFacts.

Local Open Scope string_scope.

Variable V : HttpUrl.
Variable clock : nat -> datetime.
Variable q : string.

Local Abbreviation amazon := (make_deal clock q 0 "amazon" 0 4.5 1250).
Local Abbreviation flipkart := (make_deal clock q 1 "flipkart" (-50) 4.3 980).
Local Abbreviation myntra := (make_deal clock q 2 "myntra" 120 4.6 540).
Local Abbreviation ajio := (make_deal clock q 3 "ajio" (-100) 4.2 330).

Lemma validate_all_accepts (us : list string) :
  forallb (Validated.ok V) us = true ->
  exists l, Validated.validate_all V us = Some l
            /\ List.length l = List.length us.
Proof.
  induction us as [| u us IH]; cbn [forallb Validated.validate_all].
  - intros _. exists []. auto.
  - unfold Validated.ok at 1. destruct (validate V u) as [u' |]; [| discriminate].
    rewrite andb_true_l. intros H. destruct (IH H) as [l [E Hl]].
    rewrite E. exists (u' :: l). cbn [List.length]. auto.
Qed.

Lemma validate_all_rejects (us : list string) :
  forallb (Validated.ok V) us = false -> Validated.validate_all V us = None.
Proof.
  induction us as [| u us IH]; cbn [forallb Validated.validate_all];
    [discriminate |].
  unfold Validated.ok at 1. destruct (validate V u) as [u' |]; [| reflexivity].
  rewrite andb_true_l. intros H. now rewrite (IH H).
Qed.

Lemma new_Deal_make (i : nat) (pf : string) (delta r : R) (n : Z) :
  Validated.new_Deal V (make_deal clock q i pf delta r n)
  = match Validated.validate_all V demo_images, validate V (Validated.link pf q) with
    | Some imgs, Some u =>
        Returns (Validated.stored imgs (Some u) (make_deal clock q i pf delta r n))
    | _, _ => Raises ValidationError
    end.
Proof.
  unfold Validated.new_Deal.
  cbn [make_deal image_urls product_url Validated.validate_opt].
  fold (Validated.link pf q).
  destruct (Validated.validate_all V demo_images);
    destruct (validate V (Validated.link pf q)); reflexivity.
Qed.

Lemma accepts_links :
  Validated.accepts V q = true ->
  exists imgs ua uf um uj,
    Validated.validate_all V demo_images = Some imgs
    /\ List.length imgs = 4%nat
    /\ validate V (Validated.link "amazon" q) = Some ua
    /\ validate V (Validated.link "flipkart" q) = Some uf
    /\ validate V (Validated.link "myntra" q) = Some um
    /\ validate V (Validated.link "ajio" q) = Some uj.
Proof.
  unfold Validated.accepts. intros H. apply andb_true_iff in H as [Hi Hl].
  destruct (validate_all_accepts demo_images Hi) as [imgs [Ei Li]].
  unfold PLATFORMS in Hl. cbn [forallb] in Hl. unfold Validated.ok in Hl.
  destruct (validate V (Validated.link "amazon" q)) as [ua |]; [| discriminate].
  destruct (validate V (Validated.link "flipkart" q)) as [uf |]; [| discriminate].
  destruct (validate V (Validated.link "myntra" q)) as [um |]; [| discriminate].
  destruct (validate V (Validated.link "ajio" q)) as [uj |]; [| discriminate].
  exists imgs, ua, uf, um, uj. repeat split; auto.
Qed.

Lemma built_deals_returns :
  Validated.accepts V q = true ->
  exists imgs ua uf um uj,
    List.length imgs = 4%nat
    /\ Validated.built_deals V clock q
       = Returns [ Validated.stored imgs (Some ua) amazon;
                   Validated.stored imgs (Some uf) flipkart;
                   Validated.stored imgs (Some um) myntra;
                   Validated.stored imgs (Some uj) ajio ].
Proof.
  intros H. destruct (accepts_links H)
    as [imgs [ua [uf [um [uj [Ei [Li [Ea [Ef [Em Ej]]]]]]]]]].
  exists imgs, ua, uf, um, uj. split; [exact Li |].
  unfold Validated.built_deals. rewrite built_deals_eq. cbn [List.map].
  rewrite !new_Deal_make, Ei, Ea, Ef, Em, Ej. reflexivity.
Qed.

Lemma built_deals_raises :
  Validated.accepts V q = false ->
  Validated.built_deals V clock q = Raises ValidationError.
Proof.
  intros H. unfold Validated.built_deals. rewrite built_deals_eq. cbn [List.map].
  rewrite !new_Deal_make.
  destruct (Validated.validate_all V demo_images) as [imgs |] eqn:Ei;
    [| reflexivity].
  destruct (validate V (Validated.link "amazon" q)) as [ua |] eqn:Ea;
    [| reflexivity].
  destruct (validate V (Validated.link "flipkart" q)) as [uf |] eqn:Ef;
    [| reflexivity].
  destruct (validate V (Validated.link "myntra" q)) as [um |] eqn:Em;
    [| reflexivity].
  destruct (validate V (Validated.link "ajio" q)) as [uj |] eqn:Ej;
    [| reflexivity].
  exfalso. unfold Validated.accepts in H. apply andb_false_iff in H as [H | H].
  - apply validate_all_rejects in H. congruence.
  - unfold PLATFORMS in H. cbn [forallb] in H. unfold Validated.ok in H.
    rewrite Ea, Ef, Em, Ej in H. discriminate.
Qed.

(** The stored deals have the numbers of the synthesizer. *)
Lemma stored_numbers (imgs : list string) (ua uf um uj : string) :
  map platform
    [ Validated.stored imgs (Some ua) amazon; Validated.stored imgs (Some um) myntra;
      Validated.stored imgs (Some uf) flipkart; Validated.stored imgs (Some uj) ajio ]
  = ["amazon"; "myntra"; "flipkart"; "ajio"]
  /\ map price
       [ Validated.stored imgs (Some ua) amazon; Validated.stored imgs (Some um) myntra;
         Validated.stored imgs (Some uf) flipkart; Validated.stored imgs (Some uj) ajio ]
     = [999; 1119; 949; 899]
  /\ map discount_percent
       [ Validated.stored imgs (Some ua) amazon; Validated.stored imgs (Some um) myntra;
         Validated.stored imgs (Some uf) flipkart; Validated.stored imgs (Some uj) ajio ]
     = [Some 20; Some 20; Some 20; Some 20]
  /\ map rating
       [ Validated.stored imgs (Some ua) amazon; Validated.stored imgs (Some um) myntra;
         Validated.stored imgs (Some uf) flipkart; Validated.stored imgs (Some uj) ajio ]
     = [Some 4.5; Some 4.6; Some 4.3; Some 4.2]
  /\ map reviews_count
       [ Validated.stored imgs (Some ua) amazon; Validated.stored imgs (Some um) myntra;
         Validated.stored imgs (Some uf) flipkart; Validated.stored imgs (Some uj) ajio ]
     = [Some 1250%Z; Some 540%Z; Some 980%Z; Some 330%Z]
  /\ ((0.9559 <= score_key (Validated.stored imgs (Some ua) amazon) <= 0.9560)
      /\ (0.9467 <= score_key (Validated.stored imgs (Some um) myntra) <= 0.9518)
      /\ (0.9374 <= score_key (Validated.stored imgs (Some uf) flipkart) <= 0.9425)
      /\ (0 <= score_key (Validated.stored imgs (Some uj) ajio) <= 0.9360)).
Proof.
  pose proof (synthesized_prices clock q) as [Pa [Pm [Pf Pj]]].
  repeat split; try reflexivity.
  - cbn [map Validated.stored price]. now rewrite Pa, Pm, Pf, Pj.
  - cbn [map Validated.stored discount_percent]. now rewrite !make_deal_discount.
  - apply (synthesized_scores clock q).
  - apply (synthesized_scores clock q).
  - apply (synthesized_scores clock q).
  - apply (synthesized_scores clock q).
  - apply (synthesized_scores clock q).
  - apply (synthesized_scores clock q).
  - apply (synthesized_scores clock q).
  - apply (synthesized_scores clock q).
Qed.

Lemma scrape_stub_returns :
  Validated.accepts V q = true ->
  exists imgs ua uf um uj,
    List.length imgs = 4%nat
    /\ Validated.built_deals V clock q
       = Returns [ Validated.stored imgs (Some ua) amazon;
                   Validated.stored imgs (Some uf) flipkart;
                   Validated.stored imgs (Some um) myntra;
                   Validated.stored imgs (Some uj) ajio ]
    /\ Validated.scrape_stub V clock q
       = Returns [ Validated.stored imgs (Some ua) amazon;
                   Validated.stored imgs (Some um) myntra;
                   Validated.stored imgs (Some uf) flipkart;
                   Validated.stored imgs (Some uj) ajio ].
Proof.
  intros H. destruct (built_deals_returns H) as [imgs [ua [uf [um [uj [Li Eb]]]]]].
  exists imgs, ua, uf, um, uj. split; [exact Li |]. split; [exact Eb |].
  unfold Validated.scrape_stub. rewrite Eb. f_equal.
  destruct (stored_numbers imgs ua uf um uj) as [_ [_ [_ [_ [_ Hs]]]]].
  now apply four_best.
Qed.

Lemma scrape_stub_raises :
  Validated.accepts V q = false ->
  Validated.scrape_stub V clock q = Raises ValidationError.
Proof.
  intros H. unfold Validated.scrape_stub. now rewrite (built_deals_raises H).
Qed.

End ValidatedFacts.

Section LongQuery.

Local Open Scope string_scope.



End LongQuery.




Section ValidatedHandler.

Local Open Scope string_scope.

Variable float_str : R -> string.
Variable V : HttpUrl.
Variable clock : nat -> datetime.

Lemma returns_accepted (q : string) (ds : list Deal) :
  Validated.scrape_stub V clock q = Returns ds -> Validated.accepts V q = true.
Proof.
  intros H. destruct (Validated.accepts V q) eqn:E; [reflexivity |].
  rewrite (scrape_stub_raises V clock q E) in H. discriminate.
Qed.

(** Apart from the URLs, the deals that are returned are the deals of
    [scrape_stub] above, in the same order. *)
Lemma returned_deals_fields (q : string) (ds : list Deal) :
  Validated.scrape_stub V clock q = Returns ds ->
  map (fun d => (platform d, title d, price d, original_price d,
                 discount_percent d, rating d, reviews_count d,
                 quality_score d, delivery d, created_at d)) ds
  = map (fun d => (platform d, title d, price d, original_price d,
                   discount_percent d, rating d, reviews_count d,
                   quality_score d, delivery d, created_at d))
        (scrape_stub clock q)
  /\ Forall (fun d => List.length (image_urls d) = 4%nat) ds.
Proof.
  intros H. pose proof (returns_accepted q ds H) as Ha.
  destruct (scrape_stub_returns V clock q Ha)
    as [imgs [ua [uf [um [uj [Li [_ Es]]]]]]].
  rewrite Es in H. injection H as <-. rewrite scrape_stub_order.
  split; [reflexivity |].
  repeat (apply Forall_cons; [exact Li |]). apply Forall_nil.
Qed.

Lemma search_deals_unfold (payload : SearchQuery) (synth : list Deal) :
  Validated.scrape_stub V clock (query payload) = Returns synth ->
  Validated.search_deals float_str V clock payload
  = Returns
      {| deals := sort_deals (sort_by payload)
                    (filter_price (min_price payload) (max_price payload) synth);
         pitch := craft_pitch float_str (query payload)
                    (sort_deals (sort_by payload)
                       (filter_price (min_price payload) (max_price payload) synth)) |}.
Proof. intros H. unfold Validated.search_deals. now rewrite H. Qed.

End ValidatedHandler.

(** X18.  For every query that passes validation the deals come back in
    the order amazon, myntra, flipkart, ajio.  The pick number in a title
    and the clock reading of a deal are those of its platform tuple, not
    of its rank: after a common prefix the titles read #1, #3, #2, #4. *)
Theorem scrape_stub_platform_order (V : HttpUrl) (clock : nat -> datetime)
    (q : string) :
  Validated.accepts V q = true ->
  exists ds,
    Validated.scrape_stub V clock q = Returns ds
    /\ map platform ds = ["amazon"; "myntra"; "flipkart"; "ajio"]%string
    /\ (exists t : string,
           map title ds
           = map (fun k => (t ++ " – Top Pick #" ++ k)%string)
                 ["1"; "3"; "2"; "4"]%string)
    /\ map created_at ds
       = [Some (clock 0%nat); Some (clock 2%nat); Some (clock 1%nat);
          Some (clock 3%nat)].
Proof.
  intros H. destruct (scrape_stub_returns V clock q H)
    as [imgs [ua [uf [um [uj [Li [_ Es]]]]]]].
  eexists. split; [exact Es |]. split; [reflexivity |].
  split; [exists (Str.title q); reflexivity | reflexivity].
Qed.

Lemma scrape_stub_platform_order_witness :
  exists ds,
    Validated.scrape_stub lenient (fun i => Z.of_nat i) "laptop" = Returns ds
    /\ map platform ds = ["amazon"; "myntra"; "flipkart"; "ajio"]%string
    /\ (exists t : string,
           map title ds
           = map (fun k => (t ++ " – Top Pick #" ++ k)%string)
                 ["1"; "3"; "2"; "4"]%string)
    /\ map created_at ds
       = [Some (Z.of_nat 0); Some (Z.of_nat 2); Some (Z.of_nat 1);
          Some (Z.of_nat 3)].
Proof.
  apply (scrape_stub_platform_order lenient (fun i => Z.of_nat i) "laptop").
  vm_compute. reflexivity.
Defined.

(** X22.  For every payload the handler either raises [ValidationError],
    which it does exactly when a URL of the query is rejected and whatever
    the bounds and the directive are, or returns the synthesized deals
    whose price lies within the bounds given, and only those: at most four
    of them, no platform twice, with the pitch of the returned list. *)
Theorem search_deals_returns_synthesized (float_str : R -> string) (V : HttpUrl)
    (clock : nat -> datetime) (payload : SearchQuery) :
  (Validated.accepts V (query payload) = false
   /\ Validated.scrape_stub V clock (query payload) = Raises ValidationError
   /\ Validated.search_deals float_str V clock payload = Raises ValidationError)
  \/ (Validated.accepts V (query payload) = true
      /\ exists synth resp,
           Validated.scrape_stub V clock (query payload) = Returns synth
           /\ Validated.search_deals float_str V clock payload = Returns resp
           /\ (forall d,
                  In d (deals resp)
                  <-> In d synth
                      /\ when_present (fun m => m <= price d) (min_price payload)
                      /\ when_present (fun m => price d <= m) (max_price payload))
           /\ (List.length (deals resp) <= 4)%nat
           /\ NoDup (map platform (deals resp))
           /\ pitch resp = craft_pitch float_str (query payload) (deals resp)).
Proof.
  destruct (Validated.accepts V (query payload)) eqn:Ha; [right | left].
  - split; [reflexivity |].
    destruct (scrape_stub_returns V clock (query payload) Ha)
      as [imgs [ua [uf [um [uj [Li [_ Es]]]]]]].
    destruct (stored_numbers clock (query payload) imgs ua uf um uj)
      as [Kp [_ [_ [_ [_ _]]]]].
    eexists. eexists. split; [exact Es |].
    split; [apply search_deals_unfold; exact Es |]. cbn [deals pitch].
    match goal with
    | |- context [sort_deals ?dir (filter_price ?lo ?hi ?l)] =>
        set (synth := l) in *; set (fs := filter_price lo hi synth);
        pose proof (sort_deals_perm dir fs) as Hp;
        pose proof (filter_price_facts lo hi synth) as [Hlen Hnd]
    end.
    split; [| split; [| split; [| reflexivity]]].
    + intros d. rewrite <- filter_price_In. fold fs. split; intros Hd.
      * exact (Permutation_in _ Hp Hd).
      * exact (Permutation_in _ (Permutation_sym Hp) Hd).
    + rewrite (Permutation_length Hp). exact Hlen.
    + eapply Permutation_NoDup; [apply Permutation_map; symmetry; exact Hp |].
      apply Hnd. subst synth. rewrite Kp.
      repeat constructor; cbn [In]; intuition discriminate.
  - pose proof (scrape_stub_raises V clock (query payload) Ha) as Hr.
    repeat split; [exact Hr |].
    unfold Validated.search_deals. now rewrite Hr.
Qed.

(** X23.  When the query passes validation, bounds that no synthesized
    price meets (the prices run from 899 to 1119) give an empty list and
    the apology pitch, not an error: an upper bound below the lower one, an
    upper bound below 899, or a lower bound above 1119. *)
Theorem search_deals_nothing_in_range (float_str : R -> string) (V : HttpUrl)
    (clock : nat -> datetime) (payload : SearchQuery) :
  Validated.accepts V (query payload) = true ->
  (exists lo hi, min_price payload = Some lo /\ max_price payload = Some hi
                 /\ hi < lo)
  \/ (exists hi, max_price payload = Some hi /\ hi < 899)
  \/ (exists lo, min_price payload = Some lo /\ 1119 < lo) ->
  Validated.search_deals float_str V clock payload
  = Returns
      {| deals := [];
         pitch := ("I couldn't find great matches for ‘" ++ query payload
                   ++ "’ right now. Try refining the product name or category, and I'll hunt for fresh deals.")%string |}.
Proof.
  intros Ha H.
  destruct (scrape_stub_returns V clock (query payload) Ha)
    as [imgs [ua [uf [um [uj [Li [_ Es]]]]]]].
  destruct (stored_numbers clock (query payload) imgs ua uf um uj)
    as [_ [Pp [_ [_ [_ _]]]]].
  rewrite (search_deals_unfold float_str V clock payload _ Es).
  match goal with
  | |- context [filter_price ?lo ?hi ?l] =>
      assert (E : filter_price lo hi l = [])
  end.
  { apply no_member_nil. intros d Hd. apply filter_price_In in Hd.
    destruct Hd as [Hin [Hlo Hhi]].
    apply (four_price_range _ _ _ _ Pp) in Hin.
    destruct H as [[lo [hi [E1 [E2 Hlt]]]] | [[hi [E2 Hlt]] | [lo [E1 Hlt]]]].
    - rewrite E1 in Hlo. rewrite E2 in Hhi. simpl in *. lra.
    - rewrite E2 in Hhi. simpl in *. lra.
    - rewrite E1 in Hlo. simpl in *. lra. }
  rewrite E.
  assert (S : sort_deals (sort_by payload) [] = []).
  { apply Permutation_nil. symmetry. apply sort_deals_perm. }
  rewrite S. reflexivity.
Qed.

Lemma search_deals_nothing_in_range_witness :
  Validated.search_deals (fun _ => "0.0"%string) lenient (fun _ => 0%Z)
    (mkSearchQuery "laptop" None (Some 2000) None (Some "rating"%string))
  = Returns
      {| deals := [];
         pitch := ("I couldn't find great matches for ‘" ++ "laptop"
                   ++ "’ right now. Try refining the product name or category, and I'll hunt for fresh deals.")%string |}.
Proof.
  apply (search_deals_nothing_in_range (fun _ => "0.0"%string) lenient
           (fun _ => 0%Z)
           (mkSearchQuery "laptop" None (Some 2000) None (Some "rating"%string))).
  - vm_compute. reflexivity.
  - right. right. exists 2000. split; [reflexivity | lra].
Defined.

(** X24.  When the query passes validation, with no price bounds and the
    directive [best] (the default) or no directive at all, the handler
    returns the synthesizer's list as it is, and the pitch recommends
    Amazon at 999 and offers Myntra at 1119 and Flipkart at 949. *)
Theorem search_deals_default (float_str : R -> string) (V : HttpUrl)
    (clock : nat -> datetime) (q : string) (cat directive : option string) :
  Validated.accepts V q = true ->
  directive = None \/ directive = Some "best"%string ->
  exists synth,
    Validated.scrape_stub V clock q = Returns synth
    /\ Validated.search_deals float_str V clock
         (mkSearchQuery q cat None None directive)
       = Returns
           {| deals := synth;
              pitch := ("If you're looking for " ++ q
                        ++ ", my best pick is on Amazon at ₹999 with " ++ float_str 20
                        ++ "% off and a solid " ++ float_str 4.5
                        ++ "★ from 1250+ reviews. I can also get you options from Myntra at ₹1119, Flipkart at ₹949. Want me to open the best offer for you?")%string |}.
Proof.
  intros Ha H.
  destruct (scrape_stub_returns V clock q Ha)
    as [imgs [ua [uf [um [uj [Li [_ Es]]]]]]].
  destruct (stored_numbers clock q imgs ua uf um uj)
    as [Kp [Pp [Dp [Rp [Vp Sp]]]]].
  eexists. split; [exact Es |].
  rewrite (search_deals_unfold float_str V clock
             (mkSearchQuery q cat None None directive) _ Es).
  cbn [query min_price max_price sort_by
       filter_price filter_min_price filter_max_price].
  rewrite (four_best_again _ _ _ _ Sp directive H).
  now rewrite (four_pitch float_str _ _ _ _ Kp Pp Dp Rp Vp q).
Qed.

Lemma search_deals_default_witness :
  exists synth,
    Validated.scrape_stub lenient (fun _ => 0%Z) "laptop" = Returns synth
    /\ Validated.search_deals (fun _ => "0.0"%string) lenient (fun _ => 0%Z)
         (mkSearchQuery "laptop" None None None None)
       = Returns
           {| deals := synth;
              pitch := ("If you're looking for " ++ "laptop"
                        ++ ", my best pick is on Amazon at ₹999 with " ++ "0.0"
                        ++ "% off and a solid " ++ "0.0"
                        ++ "★ from 1250+ reviews. I can also get you options from Myntra at ₹1119, Flipkart at ₹949. Want me to open the best offer for you?")%string |}.
Proof.
  apply (search_deals_default (fun _ => "0.0"%string) lenient (fun _ => 0%Z)
           "laptop" None None).
  - vm_compute. reflexivity.
  - left. reflexivity.
Defined.

(** X25.  When the query passes validation, with no price bounds the four
    named directives return the platforms in these orders: [price_low]
    ajio, flipkart, amazon, myntra; [price_high] and [rating] myntra,
    amazon, flipkart, ajio; [reviews] amazon, flipkart, myntra, ajio. *)
Theorem search_deals_platform_orders (float_str : R -> string) (V : HttpUrl)
    (clock : nat -> datetime) (q : string) (cat : option string) :
  Validated.accepts V q = true ->
  exists low high rated reviewed,
    Validated.search_deals float_str V clock
      (mkSearchQuery q cat None None (Some "price_low"%string)) = Returns low
    /\ map platform (deals low) = ["ajio"; "flipkart"; "amazon"; "myntra"]%string
    /\ Validated.search_deals float_str V clock
         (mkSearchQuery q cat None None (Some "price_high"%string)) = Returns high
    /\ map platform (deals high) = ["myntra"; "amazon"; "flipkart"; "ajio"]%string
    /\ Validated.search_deals float_str V clock
         (mkSearchQuery q cat None None (Some "rating"%string)) = Returns rated
    /\ map platform (deals rated) = ["myntra"; "amazon"; "flipkart"; "ajio"]%string
    /\ Validated.search_deals float_str V clock
         (mkSearchQuery q cat None None (Some "reviews"%string)) = Returns reviewed
    /\ map platform (deals reviewed)
       = ["amazon"; "flipkart"; "myntra"; "ajio"]%string.
Proof.
  intros Ha.
  destruct (scrape_stub_returns V clock q Ha)
    as [imgs [ua [uf [um [uj [Li [_ Es]]]]]]].
  destruct (stored_numbers clock q imgs ua uf um uj)
    as [Kp [Pp [Dp [Rp [Vp Sp]]]]].
  do 4 eexists.
  split; [apply search_deals_unfold; exact Es |].
  split.
  { cbn [query min_price max_price sort_by deals
         filter_price filter_min_price filter_max_price].
    now rewrite (four_price_low _ _ _ _ Pp). }
  split; [apply search_deals_unfold; exact Es |].
  split.
  { cbn [query min_price max_price sort_by deals
         filter_price filter_min_price filter_max_price].
    now rewrite (four_price_high _ _ _ _ Pp). }
  split; [apply search_deals_unfold; exact Es |].
  split.
  { cbn [query min_price max_price sort_by deals
         filter_price filter_min_price filter_max_price].
    now rewrite (four_rating _ _ _ _ Rp). }
  split; [apply search_deals_unfold; exact Es |].
  cbn [query min_price max_price sort_by deals
       filter_price filter_min_price filter_max_price].
  now rewrite (four_reviews_order _ _ _ _ Vp).
Qed.

Lemma search_deals_platform_orders_witness :
  exists low high rated reviewed,
    Validated.search_deals (fun _ => "0.0"%string) lenient (fun _ => 0%Z)
      (mkSearchQuery "laptop" None None None (Some "price_low"%string)) = Returns low
    /\ map platform (deals low) = ["ajio"; "flipkart"; "amazon"; "myntra"]%string
    /\ Validated.search_deals (fun _ => "0.0"%string) lenient (fun _ => 0%Z)
         (mkSearchQuery "laptop" None None None (Some "price_high"%string))
       = Returns high
    /\ map platform (deals high) = ["myntra"; "amazon"; "flipkart"; "ajio"]%string
    /\ Validated.search_deals (fun _ => "0.0"%string) lenient (fun _ => 0%Z)
         (mkSearchQuery "laptop" None None None (Some "rating"%string))
       = Returns rated
    /\ map platform (deals rated) = ["myntra"; "amazon"; "flipkart"; "ajio"]%string
    /\ Validated.search_deals (fun _ => "0.0"%string) lenient (fun _ => 0%Z)
         (mkSearchQuery "laptop" None None None (Some "reviews"%string))
       = Returns reviewed
    /\ map platform (deals reviewed)
       = ["amazon"; "flipkart"; "myntra"; "ajio"]%string.
Proof.
  apply (search_deals_platform_orders (fun _ => "0.0"%string) lenient
           (fun _ => 0%Z) "laptop" None).
  vm_compute. reflexivity.
Defined.

(** X26.  When the query passes validation, a search sorted by
    [price_low] without bounds returns four deals at the prices 899, 949,
    999 and 1119, each with a discount of 20, and a pitch that names the
    query and recommends Ajio, the cheapest, with Flipkart and Amazon as
    the alternatives. *)
Theorem search_deals_price_low (float_str : R -> string) (V : HttpUrl)
    (clock : nat -> datetime) (q : string) (cat : option string) :
  Validated.accepts V q = true ->
  exists resp,
    Validated.search_deals float_str V clock
      (mkSearchQuery q cat None None (Some "price_low"%string)) = Returns resp
    /\ map price (deals resp) = [899; 949; 999; 1119]
    /\ map discount_percent (deals resp) = [Some 20; Some 20; Some 20; Some 20]
    /\ pitch resp
       = ("If you're looking for " ++ q
          ++ ", my best pick is on Ajio at ₹899 with " ++ float_str 20
          ++ "% off and a solid " ++ float_str 4.2
          ++ "★ from 330+ reviews. I can also get you options from Flipkart at ₹949, Amazon at ₹999. Want me to open the best offer for you?")%string.
Proof.
  intros Ha.
  destruct (scrape_stub_returns V clock q Ha)
    as [imgs [ua [uf [um [uj [Li [_ Es]]]]]]].
  destruct (stored_numbers clock q imgs ua uf um uj)
    as [Kp [Pp [Dp [Rp [Vp Sp]]]]].
  eexists.
  rewrite (search_deals_unfold float_str V clock
             (mkSearchQuery q cat None None (Some "price_low"%string)) _ Es).
  cbn [query min_price max_price sort_by deals pitch
       filter_price filter_min_price filter_max_price].
  rewrite (four_price_low _ _ _ _ Pp).
  split; [reflexivity |]. cbn [deals pitch].
  split; [| split; [| apply (four_pitch_price_low float_str _ _ _ _ Kp Pp Dp Rp Vp q)]].
  - destruct (four_prices _ _ _ _ Pp) as [Pa [Pm [Pf Pj]]].
    cbn [map]. now rewrite Pa, Pf, Pj, Pm.
  - destruct (four_discounts _ _ _ _ Dp) as [Da [Dm [Df Dj]]].
    cbn [map]. now rewrite Da, Df, Dj, Dm.
Qed.

Lemma search_deals_price_low_witness :
  exists resp,
    Validated.search_deals (fun _ => "0.0"%string) lenient (fun _ => 0%Z)
      (mkSearchQuery "laptop" None None None (Some "price_low"%string))
    = Returns resp
    /\ map price (deals resp) = [899; 949; 999; 1119]
    /\ map discount_percent (deals resp) = [Some 20; Some 20; Some 20; Some 20]
    /\ pitch resp
       = ("If you're looking for " ++ "laptop"
          ++ ", my best pick is on Ajio at ₹899 with " ++ "0.0"
          ++ "% off and a solid " ++ "0.0"
          ++ "★ from 330+ reviews. I can also get you options from Flipkart at ₹949, Amazon at ₹999. Want me to open the best offer for you?")%string.
Proof.
  apply (search_deals_price_low (fun _ => "0.0"%string) lenient (fun _ => 0%Z)
           "laptop" None).
  vm_compute. reflexivity.
Defined.
